(** * Gapminder dashboard (app1.py): filter, rank and publish

    A shallow embedding of [app1.py].  The module-level table
    [gapminder_df] is a list of typed rows; the chart builders
    ([create_bar_chart], [create_population_chart], ...,
    [create_choropleth_map]) are functions into a small model of a plotly
    figure; the four [@callback] declarations are a registry that a
    one-event step function consults.

    pandas and plotly are outside the repository.  [sort_values] is taken
    through its documented contract (class [SortValues]); the column
    selection, boolean masks, [head], [unique] and [sorted] are written
    out. *)

From Stdlib Require Import List String Ascii ZArith QArith Bool Lia.
From Stdlib Require Import Sorted Permutation RelationClasses OrdersEx.
From Stdlib Require Import DecimalString.
Import ListNotations.

Local Open Scope string_scope.
Local Open Scope Z_scope.

(* ================================================================= *)
(** ** Exceptions *)

(** The two exceptions the chart builders can raise: a [by=] label that
    is not a column ([sort_values]) and a plotly express argument that
    is not a column. *)
Inductive PyError : Type :=
| KeyError (label : string)
| ValueError (arg : string).

Inductive result (A : Type) : Type :=
| Ok (a : A)
| Raise (e : PyError).
Arguments Ok {A} a.
Arguments Raise {A} e.

Definition bind {A B : Type} (m : result A) (f : A -> result B) : result B :=
  match m with
  | Ok a => f a
  | Raise e => Raise e
  end.

Notation "x <- m ;; k" := (bind m (fun x => k))
  (at level 61, m at next level, right associativity).

Definition succeeds {A : Type} (m : result A) : Prop :=
  exists a, m = Ok a.

(* ================================================================= *)
(** ** The table *)

(** A cell of the data frame: [object] (string), [int64] or [float64].
    A float is its rational value; the table holds no NaN. *)
Inductive cell : Type :=
| CStr (s : string)
| CInt (z : Z)
| CFloat (q : Q).

(** One row of [plotly.data.gapminder()]. *)
Record Row : Type := mkRow {
  country : string;
  continent : string;
  year : Z;
  lifeExp : Q;
  pop : Z;
  gdpPercap : Q;
  iso_alpha : string;
  iso_num : Z
}.

Definition DataFrame : Type := list Row.

(** [gapminder_df.columns], in the frame's own order. *)
Definition columns : list string :=
  ["country"; "continent"; "year"; "lifeExp"; "pop"; "gdpPercap";
   "iso_alpha"; "iso_num"].

(** [df[label]] read at one row; [None] when [label] is no column. *)
Definition column (label : string) : option (Row -> cell) :=
  if String.eqb label "country" then Some (fun r => CStr (country r))
  else if String.eqb label "continent" then Some (fun r => CStr (continent r))
  else if String.eqb label "year" then Some (fun r => CInt (year r))
  else if String.eqb label "lifeExp" then Some (fun r => CFloat (lifeExp r))
  else if String.eqb label "pop" then Some (fun r => CInt (pop r))
  else if String.eqb label "gdpPercap" then Some (fun r => CFloat (gdpPercap r))
  else if String.eqb label "iso_alpha" then Some (fun r => CStr (iso_alpha r))
  else if String.eqb label "iso_num" then Some (fun r => CInt (iso_num r))
  else None.

(** The three metrics the dashboard ranks and maps. *)
Definition is_metric (label : string) : Prop :=
  label = "pop" \/ label = "gdpPercap" \/ label = "lifeExp".

(* ================================================================= *)
(** ** Order on cells *)

Definition num (c : cell) : Q :=
  match c with
  | CInt z => inject_Z z
  | CFloat q => q
  | CStr _ => 0%Q
  end.

Definition str_leb (s t : string) : bool :=
  match String_as_OT.compare s t with
  | Gt => false
  | _ => true
  end.

(** Numbers compare by value, strings lexicographically.  A column holds
    one kind of cell, so the mixed cases (numbers before strings) are
    never met when sorting by a column. *)
Definition cell_leb (a b : cell) : bool :=
  match a, b with
  | CStr s, CStr t => str_leb s t
  | CStr _, _ => false
  | _, CStr _ => true
  | _, _ => Qle_bool (num a) (num b)
  end.

Definition cell_le (a b : cell) : Prop := cell_leb a b = true.

(** Two cells tie when neither sorts before the other. *)
Definition cell_tie (a b : cell) : bool := cell_leb a b && cell_leb b a.

(** [desc key a b]: row [a] may stand before row [b] when sorting by
    [key] with [ascending=False]. *)
Definition desc (key : Row -> cell) (a b : Row) : Prop :=
  cell_le (key b) (key a).

(* ================================================================= *)
(** ** pandas operations *)

(** [df.sort_values(by=..., ascending=False)] with the default
    [kind='quicksort']: pandas promises the rows back, reordered so that
    the key never increases, and for this kind promises nothing about
    rows with equal keys. *)
Class SortValues : Type := {
  sort_values : (Row -> cell) -> DataFrame -> DataFrame;
  sort_values_perm : forall key df, Permutation df (sort_values key df);
  sort_values_sorted : forall key df, Sorted (desc key) (sort_values key df)
}.

(** [df.head(n)]. *)
Definition head (n : nat) (df : DataFrame) : DataFrame := firstn n df.

(** [series.unique()]: distinct values in order of first appearance. *)
Fixpoint unique {A : Type} (eqb : A -> A -> bool) (l : list A) : list A :=
  match l with
  | [] => []
  | x :: t => x :: filter (fun y => negb (eqb x y)) (unique eqb t)
  end.

(** [sorted(...)] on integers. *)
Fixpoint insert_Z (x : Z) (l : list Z) : list Z :=
  match l with
  | [] => [x]
  | y :: t => if x <=? y then x :: y :: t else y :: insert_Z x t
  end.

Definition sorted (l : list Z) : list Z := fold_right insert_Z [] l.

(** [df[(df["continent"]==continent) & (df["year"]==year)]]. *)
Definition select_continent_year (continent0 : string) (year0 : Z)
    (df : DataFrame) : DataFrame :=
  filter (fun r => String.eqb (continent r) continent0 && (year r =? year0)) df.

(** [df[df["year"]==year]]. *)
Definition select_year (year0 : Z) (df : DataFrame) : DataFrame :=
  filter (fun r => year r =? year0) df.

(** Rows grouped by a string column, groups in order of first
    appearance, rows of a group in frame order (plotly express groups
    the frame this way for [color=]). *)
Definition groupby (key : Row -> string) (df : DataFrame)
    : list (string * DataFrame) :=
  map (fun k => (k, filter (fun r => String.eqb (key r) k) df))
      (unique String.eqb (map key df)).

(* ================================================================= *)
(** ** Figures *)

(** Position in a discrete colour sequence:
    [px.colors.qualitative.Set2] (eight colours), which
    [create_bar_chart] names, or the default sequence of plotly express
    (ten colours). *)
Inductive Color : Type :=
| Set2 (i : nat)
| Colorway (i : nat).

(** The colour scale of a trace: a named continuous scale, or one colour
    for the whole trace. *)
Inductive Colorscale : Type :=
| Continuous (name : string)
| Constant (c : Color).

Inductive Trace : Type :=
| Bar (name : string) (x : list cell) (y : list cell) (text_auto : bool)
      (marker_color : Color)
| Choropleth (name : string) (locations : list string)
      (locationmode : string) (z : list cell) (colorscale : Colorscale)
      (customdata : list (cell * cell))
| Table (header : list string) (header_align : string)
      (cells : list (list cell)) (cells_align : string).

Record Margin : Type := mkMargin {
  margin_t : option Z;
  margin_l : option Z;
  margin_r : option Z;
  margin_b : option Z
}.

Record Layout : Type := mkLayout {
  title : option string;
  template : option string;
  height : option Z;
  margin : option Margin;
  paper_bgcolor : option string
}.

Record Figure : Type := mkFigure {
  data : list Trace;
  layout : Layout
}.

(** Number of bars drawn by a figure. *)
Definition trace_bars (t : Trace) : nat :=
  match t with
  | Bar _ x _ _ _ => List.length x
  | _ => 0%nat
  end.

Definition bars (fig : Figure) : nat :=
  fold_right (fun t n => (trace_bars t + n)%nat) 0%nat (data fig).

(** The points of a map: location, colour value, hover data. *)
Definition trace_points (t : Trace) : list (string * cell * (cell * cell)) :=
  match t with
  | Choropleth _ locs _ z _ custom => combine (combine locs z) custom
  | _ => []
  end.

Definition points (fig : Figure) : list (string * cell * (cell * cell)) :=
  flat_map trace_points (data fig).

(** The bars of a figure, trace after trace: category and height. *)
Definition trace_bar_points (t : Trace) : list (cell * cell) :=
  match t with
  | Bar _ x y _ _ => combine x y
  | _ => []
  end.

Definition bar_points (fig : Figure) : list (cell * cell) :=
  flat_map trace_bar_points (data fig).

(** The colour value a map carries for an ISO code, if any. *)
Definition map_value (fig : Figure) (iso : string) : option cell :=
  match find (fun p => String.eqb (fst (fst p)) iso) (points fig) with
  | Some p => Some (snd (fst p))
  | None => None
  end.

(** [str(year)] inside an f-string. *)
Definition str_of_Z (z : Z) : string := NilZero.string_of_int (Z.to_int z).

(** [enumerate]. *)
Definition enumerate {A : Type} (l : list A) : list (nat * A) :=
  combine (seq 0 (List.length l)) l.

(** Whether a column of the frame holds numbers ([int64] or
    [float64]); plotly express colours such a column on a continuous
    scale. *)
Definition numeric_column (label : string) : bool :=
  existsb (String.eqb label) ["year"; "lifeExp"; "pop"; "gdpPercap"; "iso_num"].

(** The text of a string cell. *)
Definition str_of_cell (c : cell) : string :=
  match c with
  | CStr s => s
  | _ => ""
  end.

(* ================================================================= *)
(** ** Chart builders *)

Section Charts.

Context {pandas_sort : SortValues}.
Variable gapminder_df : DataFrame.

(** [px.bar(df, x="country", y=y_col, color="country", text_auto=True,
     template="plotly_white", color_discrete_sequence=Set2)]: one trace
    per country, colours taken round the palette. *)
Definition px_bar (df : DataFrame) (y_col : string) : result Figure :=
  match column y_col with
  | None => Raise (ValueError y_col)
  | Some y =>
      Ok {| data :=
              map (fun ig =>
                     Bar (fst (snd ig))
                         (map (fun r => CStr (country r)) (snd (snd ig)))
                         (map y (snd (snd ig)))
                         true
                         (Set2 (fst ig mod 8)))
                  (enumerate (groupby country df));
            layout :=
              {| title := None; template := Some "plotly_white";
                 height := None; margin := None; paper_bgcolor := None |} |}
  end.

Definition update_layout_bar (fig : Figure) : Figure :=
  {| data := data fig;
     layout :=
       {| title := title (layout fig);
          template := template (layout fig);
          height := Some 500;
          margin := Some (mkMargin (Some 50) (Some 20) (Some 20) (Some 20));
          paper_bgcolor := paper_bgcolor (layout fig) |} |}.

(** [df.sort_values(by=y_col, ascending=False).head(15)], the first
    statement of [create_bar_chart]. *)
Definition sort_head (df : DataFrame) (y_col : string) : result DataFrame :=
  match column y_col with
  | None => Raise (KeyError y_col)
  | Some key => Ok (head 15 (sort_values key df))
  end.

(** [create_bar_chart(df, y_col, title)].  The body never reads
    [title]. *)
Definition create_bar_chart (df : DataFrame) (y_col : string)
    (title0 : string) : result Figure :=
  df' <- sort_head df y_col ;;
  fig <- px_bar df' y_col ;;
  Ok (update_layout_bar fig).

Definition create_population_chart (continent0 : string) (year0 : Z)
    : result Figure :=
  let df := select_continent_year continent0 year0 gapminder_df in
  create_bar_chart df "pop"
    ("Top 15 Populations in " ++ continent0 ++ " (" ++ str_of_Z year0 ++ ")").

Definition create_gdp_chart (continent0 : string) (year0 : Z)
    : result Figure :=
  let df := select_continent_year continent0 year0 gapminder_df in
  create_bar_chart df "gdpPercap"
    ("Top 15 GDP per Capita in " ++ continent0 ++ " (" ++ str_of_Z year0 ++ ")").

Definition create_life_exp_chart (continent0 : string) (year0 : Z)
    : result Figure :=
  let df := select_continent_year continent0 year0 gapminder_df in
  create_bar_chart df "lifeExp"
    ("Top 15 Life Expectancy in " ++ continent0 ++ " (" ++ str_of_Z year0 ++ ")").

(** The ranking the three bar charts share: the rows selected for a
    continent and a year, sorted by the metric and cut to fifteen. *)
Definition rank (continent0 : string) (year0 : Z) (y_col : string)
    : result DataFrame :=
  sort_head (select_continent_year continent0 year0 gapminder_df) y_col.

Definition choropleth_trace (name : string) (color : Row -> cell)
    (z : Row -> cell) (scale : Colorscale) (df : DataFrame) : Trace :=
  Choropleth name (map iso_alpha df) "ISO-3" (map z df) scale
    (map (fun r => (CStr (country r), color r)) df).

(** [px.choropleth(df, color=variable, locations="iso_alpha",
     locationmode="ISO-3", color_continuous_scale="RdYlBu",
     hover_data=["country", variable], title=...)].  A numeric column
    colours a single trace on the continuous scale, also when the frame
    has no rows (the trace then has no locations); a string column
    gives one trace per value, each in one colour of the default
    sequence. *)
Definition px_choropleth (df : DataFrame) (variable : string)
    (title0 : string) : result Figure :=
  match column variable with
  | None => Raise (ValueError variable)
  | Some color =>
      Ok {| data :=
              if numeric_column variable then
                [choropleth_trace "" color color (Continuous "RdYlBu") df]
              else
                map (fun ig =>
                       choropleth_trace (fst (snd ig)) color (fun _ => CInt 1)
                         (Constant (Colorway (fst ig mod 10)))
                         (snd (snd ig)))
                    (enumerate
                       (groupby (fun r => str_of_cell (color r)) df));
            layout :=
              {| title := Some title0; template := None; height := None;
                 margin := None; paper_bgcolor := None |} |}
  end.

Definition update_layout_map (fig : Figure) : Figure :=
  {| data := data fig;
     layout :=
       {| title := title (layout fig);
          template := template (layout fig);
          height := Some 600;
          margin := Some (mkMargin None (Some 0) (Some 0) None);
          paper_bgcolor := Some "#f8f9fa" |} |}.

Definition create_choropleth_map (variable : string) (year0 : Z)
    : result Figure :=
  let df := select_year year0 gapminder_df in
  fig <- px_choropleth df variable
           (variable ++ " Map (" ++ str_of_Z year0 ++ ")") ;;
  Ok (update_layout_map fig).

(** The figure of the "dataset" graph in [app.layout]. *)
Definition dataset_table : Figure :=
  {| data :=
       [Table columns "left"
          (flat_map (fun col =>
                       match column col with
                       | Some c => [map c gapminder_df]
                       | None => []
                       end) columns)
          "left"];
     layout :=
       {| title := None; template := None; height := Some 600;
          margin := Some (mkMargin (Some 0) (Some 0) (Some 0) (Some 0));
          paper_bgcolor := Some "#f8f9fa" |} |}.

End Charts.

(* ================================================================= *)
(** ** Controls, graphs and callbacks *)

(** Component ids of the selectors. *)
Inductive Control : Type :=
| cont_pop | year_pop
| cont_gdp | year_gdp
| cont_life_exp | year_life_exp
| var_map | year_map.

(** Component ids of the graphs. *)
Inductive Graph : Type :=
| dataset | population | gdp | life_expectancy | choropleth_map.

Definition Control_eqb (a b : Control) : bool :=
  match a, b with
  | cont_pop, cont_pop | year_pop, year_pop
  | cont_gdp, cont_gdp | year_gdp, year_gdp
  | cont_life_exp, cont_life_exp | year_life_exp, year_life_exp
  | var_map, var_map | year_map, year_map => true
  | _, _ => false
  end.

(** A [dcc.Dropdown]: its options are (label, value) pairs. *)
Record Dropdown : Type := mkDropdown {
  id : Control;
  options : list (cell * cell);
  value : cell;
  clearable : bool
}.

(** The current [value] property of every selector. *)
Record Values : Type := mkValues {
  val_cont_pop : string;
  val_year_pop : Z;
  val_cont_gdp : string;
  val_year_gdp : Z;
  val_cont_life_exp : string;
  val_year_life_exp : Z;
  val_var_map : string;
  val_year_map : Z
}.

(** The current [figure] property of every graph. *)
Record Figures : Type := mkFigures {
  fig_dataset : option Figure;
  fig_population : option Figure;
  fig_gdp : option Figure;
  fig_life_expectancy : option Figure;
  fig_choropleth_map : option Figure
}.

Record State : Type := mkState {
  values : Values;
  figures : Figures
}.

(** A selector changed: the component and its new value. *)
Inductive Event : Type :=
| Change_cont_pop (v : string)
| Change_year_pop (v : Z)
| Change_cont_gdp (v : string)
| Change_year_gdp (v : Z)
| Change_cont_life_exp (v : string)
| Change_year_life_exp (v : Z)
| Change_var_map (v : string)
| Change_year_map (v : Z).

Definition target (e : Event) : Control :=
  match e with
  | Change_cont_pop _ => cont_pop
  | Change_year_pop _ => year_pop
  | Change_cont_gdp _ => cont_gdp
  | Change_year_gdp _ => year_gdp
  | Change_cont_life_exp _ => cont_life_exp
  | Change_year_life_exp _ => year_life_exp
  | Change_var_map _ => var_map
  | Change_year_map _ => year_map
  end.

Definition new_value (e : Event) : cell :=
  match e with
  | Change_cont_pop v | Change_cont_gdp v | Change_cont_life_exp v
  | Change_var_map v => CStr v
  | Change_year_pop v | Change_year_gdp v | Change_year_life_exp v
  | Change_year_map v => CInt v
  end.

Definition get_value (c : Control) (vs : Values) : cell :=
  match c with
  | cont_pop => CStr (val_cont_pop vs)
  | year_pop => CInt (val_year_pop vs)
  | cont_gdp => CStr (val_cont_gdp vs)
  | year_gdp => CInt (val_year_gdp vs)
  | cont_life_exp => CStr (val_cont_life_exp vs)
  | year_life_exp => CInt (val_year_life_exp vs)
  | var_map => CStr (val_var_map vs)
  | year_map => CInt (val_year_map vs)
  end.

Definition set_value (e : Event) (vs : Values) : Values :=
  match e with
  | Change_cont_pop v =>
      mkValues v (val_year_pop vs) (val_cont_gdp vs) (val_year_gdp vs)
        (val_cont_life_exp vs) (val_year_life_exp vs) (val_var_map vs)
        (val_year_map vs)
  | Change_year_pop v =>
      mkValues (val_cont_pop vs) v (val_cont_gdp vs) (val_year_gdp vs)
        (val_cont_life_exp vs) (val_year_life_exp vs) (val_var_map vs)
        (val_year_map vs)
  | Change_cont_gdp v =>
      mkValues (val_cont_pop vs) (val_year_pop vs) v (val_year_gdp vs)
        (val_cont_life_exp vs) (val_year_life_exp vs) (val_var_map vs)
        (val_year_map vs)
  | Change_year_gdp v =>
      mkValues (val_cont_pop vs) (val_year_pop vs) (val_cont_gdp vs) v
        (val_cont_life_exp vs) (val_year_life_exp vs) (val_var_map vs)
        (val_year_map vs)
  | Change_cont_life_exp v =>
      mkValues (val_cont_pop vs) (val_year_pop vs) (val_cont_gdp vs)
        (val_year_gdp vs) v (val_year_life_exp vs) (val_var_map vs)
        (val_year_map vs)
  | Change_year_life_exp v =>
      mkValues (val_cont_pop vs) (val_year_pop vs) (val_cont_gdp vs)
        (val_year_gdp vs) (val_cont_life_exp vs) v (val_var_map vs)
        (val_year_map vs)
  | Change_var_map v =>
      mkValues (val_cont_pop vs) (val_year_pop vs) (val_cont_gdp vs)
        (val_year_gdp vs) (val_cont_life_exp vs) (val_year_life_exp vs) v
        (val_year_map vs)
  | Change_year_map v =>
      mkValues (val_cont_pop vs) (val_year_pop vs) (val_cont_gdp vs)
        (val_year_gdp vs) (val_cont_life_exp vs) (val_year_life_exp vs)
        (val_var_map vs) v
  end.

Definition get_figure (g : Graph) (fs : Figures) : option Figure :=
  match g with
  | dataset => fig_dataset fs
  | population => fig_population fs
  | gdp => fig_gdp fs
  | life_expectancy => fig_life_expectancy fs
  | choropleth_map => fig_choropleth_map fs
  end.

Definition set_figure (g : Graph) (f : Figure) (fs : Figures) : Figures :=
  match g with
  | dataset =>
      mkFigures (Some f) (fig_population fs) (fig_gdp fs)
        (fig_life_expectancy fs) (fig_choropleth_map fs)
  | population =>
      mkFigures (fig_dataset fs) (Some f) (fig_gdp fs)
        (fig_life_expectancy fs) (fig_choropleth_map fs)
  | gdp =>
      mkFigures (fig_dataset fs) (fig_population fs) (Some f)
        (fig_life_expectancy fs) (fig_choropleth_map fs)
  | life_expectancy =>
      mkFigures (fig_dataset fs) (fig_population fs) (fig_gdp fs) (Some f)
        (fig_choropleth_map fs)
  | choropleth_map =>
      mkFigures (fig_dataset fs) (fig_population fs) (fig_gdp fs)
        (fig_life_expectancy fs) (Some f)
  end.

(** One [@callback(Output(...), [Input(...), Input(...)])] declaration:
    the handler reads its inputs' current values. *)
Record Callback : Type := mkCallback {
  output : Graph;
  inputs : list Control;
  handler : Values -> result Figure
}.

(** Dash sets the output property when the handler returns; when it
    raises, the property keeps its value. *)
Definition publish (g : Graph) (r : result Figure) (s : State) : State :=
  match r with
  | Ok f => mkState (values s) (set_figure g f (figures s))
  | Raise _ => s
  end.

Definition listens (c : Control) (cb : Callback) : bool :=
  existsb (Control_eqb c) (inputs cb).

Definition fire (c : Control) (s : State) (cb : Callback) : State :=
  if listens c cb then publish (output cb) (handler cb (values s)) s else s.

Definition fire_all (s : State) (cb : Callback) : State :=
  publish (output cb) (handler cb (values s)) s.

(** Equality of selector values. *)
Definition cell_eqb (a b : cell) : bool :=
  match a, b with
  | CStr s, CStr t => String.eqb s t
  | CInt x, CInt y => Z.eqb x y
  | CFloat p, CFloat q => Qeq_bool p q
  | _, _ => false
  end.

(** The graph a selector belongs to. *)
Definition panel (c : Control) : Graph :=
  match c with
  | cont_pop | year_pop => population
  | cont_gdp | year_gdp => gdp
  | cont_life_exp | year_life_exp => life_expectancy
  | var_map | year_map => choropleth_map
  end.

Section Dashboard.

Context {pandas_sort : SortValues}.
Variable gapminder_df : DataFrame.

(** [gapminder_df["continent"].unique()]. *)
Definition continents : list string :=
  unique String.eqb (map continent gapminder_df).

(** [sorted(gapminder_df["year"].unique())]. *)
Definition years : list Z :=
  sorted (unique Z.eqb (map year gapminder_df)).

Definition continent_dropdown (id_value : Control) (default : string)
    : Dropdown :=
  {| id := id_value;
     options := map (fun c => (CStr c, CStr c)) continents;
     value := CStr default;
     clearable := false |}.

Definition year_dropdown (id_value : Control) (default : Z) : Dropdown :=
  {| id := id_value;
     options := map (fun y => (CInt y, CInt y)) years;
     value := CInt default;
     clearable := false |}.

(** The selectors of [app.layout], tab by tab. *)
Definition dropdowns : list Dropdown :=
  [ continent_dropdown cont_pop "Asia"; year_dropdown year_pop 1952;
    continent_dropdown cont_gdp "Asia"; year_dropdown year_gdp 1952;
    continent_dropdown cont_life_exp "Asia";
    year_dropdown year_life_exp 1952;
    {| id := var_map;
       options := [ (CStr "Population", CStr "pop");
                    (CStr "GDP per Capita", CStr "gdpPercap");
                    (CStr "Life Expectancy", CStr "lifeExp") ];
       value := CStr "lifeExp";
       clearable := false |};
    year_dropdown year_map 1952 ].

Definition update_population_chart (continent0 : string) (year0 : Z) :=
  create_population_chart gapminder_df continent0 year0.

Definition update_gdp_chart (continent0 : string) (year0 : Z) :=
  create_gdp_chart gapminder_df continent0 year0.

Definition update_life_exp_chart (continent0 : string) (year0 : Z) :=
  create_life_exp_chart gapminder_df continent0 year0.

Definition update_choropleth_map (variable : string) (year0 : Z) :=
  create_choropleth_map gapminder_df variable year0.

(** The four registered callbacks. *)
Definition callbacks : list Callback :=
  [ {| output := population; inputs := [cont_pop; year_pop];
       handler := fun vs =>
         update_population_chart (val_cont_pop vs) (val_year_pop vs) |};
    {| output := gdp; inputs := [cont_gdp; year_gdp];
       handler := fun vs =>
         update_gdp_chart (val_cont_gdp vs) (val_year_gdp vs) |};
    {| output := life_expectancy; inputs := [cont_life_exp; year_life_exp];
       handler := fun vs =>
         update_life_exp_chart (val_cont_life_exp vs) (val_year_life_exp vs) |};
    {| output := choropleth_map; inputs := [var_map; year_map];
       handler := fun vs =>
         update_choropleth_map (val_var_map vs) (val_year_map vs) |} ].

(** The page as [app.layout] declares it: the selectors at their
    defaults, the table in place, the four graphs still without a
    figure. *)
Definition layout_state : State :=
  {| values := mkValues "Asia" 1952 "Asia" 1952 "Asia" 1952 "lifeExp" 1952;
     figures :=
       mkFigures (Some (dataset_table gapminder_df)) None None None None |}.

(** On page load Dash runs every callback once. *)
Definition initial_state : State := fold_left fire_all callbacks layout_state.

(** One update cycle: the selector takes its new value, then every
    callback that lists the selector as an input runs on the current
    values and its output is published. *)
Definition step (e : Event) (s : State) : State :=
  fold_left (fire (target e)) callbacks
    (mkState (set_value e (values s)) (figures s)).

Definition run (es : list Event) (s : State) : State :=
  fold_left (fun st e => step e st) es s.

(** The selector's option values, looked up in the layout by id. *)
Definition option_values (c : Control) : list cell :=
  flat_map (fun d => if Control_eqb (id d) c then map snd (options d) else [])
           dropdowns.

Definition in_options (e : Event) : bool :=
  existsb (cell_eqb (new_value e)) (option_values (target e)).

(** What the callback listening to a selector computes. *)
Definition recompute (c : Control) (vs : Values) : result Figure :=
  match c with
  | cont_pop | year_pop =>
      update_population_chart (val_cont_pop vs) (val_year_pop vs)
  | cont_gdp | year_gdp =>
      update_gdp_chart (val_cont_gdp vs) (val_year_gdp vs)
  | cont_life_exp | year_life_exp =>
      update_life_exp_chart (val_cont_life_exp vs) (val_year_life_exp vs)
  | var_map | year_map =>
      update_choropleth_map (val_var_map vs) (val_year_map vs)
  end.

(** A state in which every graph has a figure and, for every panel
    whose handler returns on the selectors' current values, the graph
    shows the figure it returns. *)
Definition up_to_date (s : State) : Prop :=
  (forall g, exists fig, get_figure g (figures s) = Some fig) /\
  (forall c fig,
      recompute c (values s) = Ok fig ->
      get_figure (panel c) (figures s) = Some fig).

End Dashboard.

(* ================================================================= *)
(** ** A sort that meets the pandas contract *)

(** Insertion from the right, the new row going in front of the first
    row that does not beat it: rows with equal keys keep frame order. *)
Fixpoint insert_desc (key : Row -> cell) (x : Row) (l : DataFrame)
    : DataFrame :=
  match l with
  | [] => [x]
  | y :: t =>
      if cell_leb (key y) (key x) then x :: y :: t
      else y :: insert_desc key x t
  end.

Definition stable_sort (key : Row -> cell) (df : DataFrame) : DataFrame :=
  fold_right (insert_desc key) [] df.

(* ================================================================= *)
(** ** Sample frames *)

(** Six rows in the shape of the gapminder table. *)
Definition sample_df : DataFrame :=
  [ mkRow "Afghanistan" "Asia" 1952 (28801 # 1000) 8425333
          (7794453 # 10000) "AFG" 4;
    mkRow "Afghanistan" "Asia" 1957 (30332 # 1000) 9240934
          (8208530 # 10000) "AFG" 4;
    mkRow "Albania" "Europe" 1952 (5523 # 100) 1282697
          (16010561 # 10000) "ALB" 8;
    mkRow "Bahrain" "Asia" 1952 (50939 # 1000) 120447
          (98670848 # 10000) "BHR" 48;
    mkRow "Bangladesh" "Asia" 1952 (37484 # 1000) 46886859
          (6842442 # 10000) "BGD" 50;
    mkRow "Australia" "Oceania" 1952 (6912 # 100) 8691212
          (100395956 # 10000) "AUS" 36 ].

(** Eighteen rows of one continent and year, all with the same
    population and the same income: more rows than the fifteen the
    ranking keeps. *)
Definition tied_df : DataFrame :=
  map (fun ci => mkRow (fst ci) "Asia" 1952 (50 # 1) 1000 (500 # 1) (snd ci) 0)
      [ ("Afghanistan", "AFG"); ("Bahrain", "BHR"); ("Bangladesh", "BGD");
        ("Cambodia", "KHM"); ("China", "CHN"); ("India", "IND");
        ("Indonesia", "IDN"); ("Iran", "IRN"); ("Iraq", "IRQ");
        ("Israel", "ISR"); ("Japan", "JPN"); ("Jordan", "JOR");
        ("Kuwait", "KWT"); ("Lebanon", "LBN"); ("Malaysia", "MYS");
        ("Mongolia", "MNG"); ("Myanmar", "MMR"); ("Nepal", "NPL") ].

(** [Subseq l m]: [l] is [m] with some elements left out. *)
Inductive Subseq {A : Type} : list A -> list A -> Prop :=
| Subseq_nil : Subseq [] []
| Subseq_keep (a : A) (l m : list A) : Subseq l m -> Subseq (a :: l) (a :: m)
| Subseq_skip (a : A) (l m : list A) : Subseq l m -> Subseq l (a :: m).

(** [rows] keeps frame order among ties: for every key value, the rows
    of [rows] that tie with it stand in the order they have in [df]. *)
Definition keeps_frame_order (key : Row -> cell) (rows df : DataFrame) : Prop :=
  forall v : cell,
    Subseq (filter (fun r => cell_tie (key r) v) rows)
           (filter (fun r => cell_tie (key r) v) df).

(* ================================================================= *)
(** * Proofs *)

(* ================================================================= *)
(** ** Facts about the order on cells *)

Lemma str_leb_total (s t : string) : str_leb s t = false -> str_leb t s = true.
Proof.
  unfold str_leb.
  destruct (String_as_OT.compare_spec s t) as [E | L | G]; try discriminate.
  intros _.
  destruct (String_as_OT.compare_spec t s) as [E' | L' | G']; try reflexivity.
  exfalso. exact (StrictOrder_Irreflexive t (StrictOrder_Transitive _ _ _ G G')).
Qed.

Lemma str_leb_trans (s t u : string) :
  str_leb s t = true -> str_leb t u = true -> str_leb s u = true.
Proof.
  unfold str_leb.
  destruct (String_as_OT.compare_spec s t) as [E | L | G]; try discriminate;
    destruct (String_as_OT.compare_spec t u) as [E' | L' | G'];
    try discriminate; intros _ _; subst;
    destruct (String_as_OT.compare_spec s u) as [E2 | L2 | G2];
    try reflexivity; exfalso; unfold String_as_OT.eq in *; subst;
    repeat match goal with
           | H : String_as_OT.lt ?a ?a |- _ =>
               exact (StrictOrder_Irreflexive a H)
           | H1 : String_as_OT.lt ?a ?b, H2 : String_as_OT.lt ?b ?c |- _ =>
               lazymatch goal with
               | _ : String_as_OT.lt a c |- _ => fail
               | _ => pose proof (StrictOrder_Transitive a b c H1 H2)
               end
           end.
Qed.

Lemma Qle_bool_total (p q : Q) : Qle_bool p q = false -> Qle_bool q p = true.
Proof.
  intros H. apply Qle_bool_iff.
  destruct (Qlt_le_dec q p) as [L | L].
  - now apply Qlt_le_weak.
  - apply Qle_bool_iff in L. congruence.
Qed.

Lemma Qle_bool_trans (p q r : Q) :
  Qle_bool p q = true -> Qle_bool q r = true -> Qle_bool p r = true.
Proof.
  rewrite !Qle_bool_iff. apply Qle_trans.
Qed.

Lemma cell_leb_total (a b : cell) : cell_leb a b = false -> cell_leb b a = true.
Proof.
  destruct a, b; simpl; try discriminate; try reflexivity;
    auto using str_leb_total, Qle_bool_total.
Qed.

Lemma cell_leb_trans (a b c : cell) :
  cell_leb a b = true -> cell_leb b c = true -> cell_leb a c = true.
Proof.
  destruct a, b, c; simpl; try discriminate; try reflexivity;
    eauto using str_leb_trans, Qle_bool_trans.
Qed.

Lemma cell_leb_refl (a : cell) : cell_leb a a = true.
Proof.
  destruct (cell_leb a a) eqn:E; [reflexivity |].
  rewrite <- E at 1. now apply cell_leb_total.
Qed.

Lemma desc_trans (key : Row -> cell) : Transitive (desc key).
Proof.
  intros a b c Hab Hbc. unfold desc, cell_le in *.
  eapply cell_leb_trans; eassumption.
Qed.

(* ================================================================= *)
(** ** The stable sort meets the contract *)

Lemma insert_desc_perm key x l : Permutation (x :: l) (insert_desc key x l).
Proof.
  induction l as [| y t IH]; simpl.
  - reflexivity.
  - destruct (cell_leb (key y) (key x)).
    + reflexivity.
    + rewrite perm_swap. now constructor.
Qed.

Lemma insert_desc_sorted key x l :
  Sorted (desc key) l -> Sorted (desc key) (insert_desc key x l).
Proof.
  induction 1 as [| y t Hs IH Hhd]; simpl.
  - repeat constructor.
  - destruct (cell_leb (key y) (key x)) eqn:E.
    + constructor; [now constructor |]. constructor. exact E.
    + constructor; [exact IH |].
      apply cell_leb_total in E.
      destruct Hhd as [| z t' Hz]; simpl.
      * constructor. exact E.
      * destruct (cell_leb (key z) (key x)); constructor; assumption.
Qed.

Lemma stable_sort_perm key df : Permutation df (stable_sort key df).
Proof.
  induction df as [| x t IH]; simpl.
  - constructor.
  - rewrite <- insert_desc_perm. now constructor.
Qed.

Lemma stable_sort_sorted key df : Sorted (desc key) (stable_sort key df).
Proof.
  induction df as [| x t IH]; simpl.
  - constructor.
  - now apply insert_desc_sorted.
Qed.

Definition StableSort : SortValues :=
  {| sort_values := stable_sort;
     sort_values_perm := stable_sort_perm;
     sort_values_sorted := stable_sort_sorted |}.

(* ================================================================= *)
(** ** Facts about [unique], [sorted], [head] and [groupby] *)

Section Unique.

Variable A : Type.
Variable eqb : A -> A -> bool.
Hypothesis eqb_spec : forall a b, eqb a b = true <-> a = b.

Lemma eqb_refl_true (a : A) : eqb a a = true.
Proof. now apply eqb_spec. Qed.

Lemma eqb_neq_false (a b : A) : a <> b -> eqb a b = false.
Proof.
  intros N. destruct (eqb a b) eqn:E; [| reflexivity].
  apply eqb_spec in E. contradiction.
Qed.

Lemma unique_In (l : list A) (a : A) : In a (unique eqb l) <-> In a l.
Proof.
  induction l as [| x t IH]; simpl; [tauto |].
  rewrite filter_In, IH. split.
  - intros [E | [H _]]; auto.
  - intros [E | H]; [now left |].
    destruct (eqb x a) eqn:E.
    + left. now apply eqb_spec.
    + right. now split.
Qed.

Lemma unique_NoDup (l : list A) : NoDup (unique eqb l).
Proof.
  induction l as [| x t IH]; simpl; constructor.
  - rewrite filter_In, eqb_refl_true. simpl. intros [_ F]. discriminate.
  - now apply NoDup_filter.
Qed.

End Unique.

Lemma String_eqb_spec (a b : string) : String.eqb a b = true <-> a = b.
Proof. apply String.eqb_eq. Qed.

Lemma insert_Z_In (x y : Z) (l : list Z) :
  In y (insert_Z x l) <-> y = x \/ In y l.
Proof.
  induction l as [| z t IH]; simpl.
  - intuition congruence.
  - destruct (x <=? z); simpl; rewrite ?IH; intuition congruence.
Qed.

Lemma sorted_In (l : list Z) (y : Z) : In y (sorted l) <-> In y l.
Proof.
  induction l as [| x t IH]; simpl; [tauto |].
  rewrite insert_Z_In, IH. intuition congruence.
Qed.

Lemma insert_Z_ascending (x : Z) (l : list Z) :
  ~ In x l -> StronglySorted Z.lt l -> StronglySorted Z.lt (insert_Z x l).
Proof.
  intros N H. induction H as [| z t Hs IH Hall]; simpl.
  - repeat constructor.
  - simpl in N. destruct (x <=? z) eqn:E.
    + apply Z.leb_le in E.
      assert (x < z) by lia.
      constructor; [now constructor |].
      constructor; [assumption |].
      eapply Forall_impl; [| exact Hall]. simpl. intros; lia.
    + apply Z.leb_gt in E.
      constructor; [apply IH; tauto |].
      apply Forall_forall. intros w Hw.
      apply insert_Z_In in Hw. destruct Hw as [-> | Hw]; [assumption |].
      rewrite Forall_forall in Hall. now apply Hall.
Qed.

Lemma sorted_ascending (l : list Z) :
  NoDup l -> StronglySorted Z.lt (sorted l).
Proof.
  induction 1 as [| x t Hx Hnd IH]; simpl.
  - constructor.
  - apply insert_Z_ascending; [| exact IH].
    now rewrite sorted_In.
Qed.

Lemma Sorted_firstn (A : Type) (R : A -> A -> Prop) (n : nat) (l : list A) :
  Sorted R l -> Sorted R (firstn n l).
Proof.
  intros H. revert n.
  induction H as [| x t Hs IH Hhd]; intros [| n]; simpl; try constructor.
  - apply IH.
  - destruct Hhd as [| y t' Hy]; destruct n; simpl; now constructor.
Qed.

Lemma combine_map (A B C : Type) (f : A -> B) (g : A -> C) (l : list A) :
  combine (map f l) (map g l) = map (fun a => (f a, g a)) l.
Proof.
  induction l as [| a t IH]; simpl; [reflexivity | now rewrite IH].
Qed.

Lemma enumerate_snd (A : Type) (l : list A) : map snd (enumerate l) = l.
Proof.
  unfold enumerate. generalize 0%nat.
  induction l as [| a t IH]; intros n; simpl; [reflexivity |].
  now rewrite IH.
Qed.

(** Summed over distinct keys that cover the frame, the group sizes add
    up to the number of rows. *)
Lemma group_sizes (key : Row -> string) (df : DataFrame) (ks : list string) :
  NoDup ks ->
  (forall r, In r df -> In (key r) ks) ->
  list_sum (map (fun k => List.length
                            (filter (fun r => String.eqb (key r) k) df)) ks)
  = List.length df.
Proof.
  intros Hnd. induction df as [| r t IH]; intros Hin; simpl.
  - clear. induction ks; simpl; auto.
  - rewrite <- IH by (intros; apply Hin; now right).
    assert (Hr : In (key r) ks) by (apply Hin; now left).
    clear IH Hin. revert Hr.
    induction Hnd as [| k ks Hk Hnd IHks]; intros Hr; simpl.
    + contradiction.
    + destruct (String.eqb (key r) k) eqn:E; simpl.
      * apply String.eqb_eq in E. subst k.
        enough (Hks : map (fun k => List.length
                             (if String.eqb (key r) k
                              then r :: filter (fun r => String.eqb (key r) k) t
                              else filter (fun r => String.eqb (key r) k) t)) ks
                      = map (fun k => List.length
                               (filter (fun r => String.eqb (key r) k) t)) ks)
          by now rewrite Hks.
        apply map_ext_in. intros k' Hk'.
        destruct (String.eqb (key r) k') eqn:E'; [| reflexivity].
        apply String.eqb_eq in E'. subst k'. contradiction.
      * destruct Hr as [-> | Hr]; [now rewrite String.eqb_refl in E |].
        rewrite (IHks Hr). lia.
Qed.

Lemma groupby_sizes (key : Row -> string) (df : DataFrame) :
  list_sum (map (fun g => List.length (snd g)) (groupby key df))
  = List.length df.
Proof.
  unfold groupby. rewrite map_map. simpl.
  apply group_sizes.
  - apply unique_NoDup, String_eqb_spec.
  - intros r Hr. apply unique_In; [apply String_eqb_spec |].
    now apply in_map.
Qed.

Lemma px_bar_bars (df : DataFrame) (y_col : string) (fig : Figure) :
  px_bar df y_col = Ok fig -> bars fig = List.length df.
Proof.
  unfold px_bar. destruct (column y_col) as [y |]; [| discriminate].
  intros [= <-]. unfold bars. simpl.
  rewrite <- (groupby_sizes country df).
  rewrite <- (enumerate_snd _ (groupby country df)) at 2.
  induction (enumerate (groupby country df)) as [| ig t IH]; simpl.
  - reflexivity.
  - rewrite IH. now rewrite !length_map.
Qed.

(* ================================================================= *)
(** ** The ranking *)

Lemma is_metric_column (m : string) :
  is_metric m ->
  exists key, column m = Some key /\ numeric_column m = true.
Proof.
  intros [-> | [-> | ->]]; eexists; (split; [reflexivity |]); reflexivity.
Qed.

Lemma select_continent_year_spec (c : string) (y : Z) (df : DataFrame) (r : Row) :
  In r (select_continent_year c y df) <->
  In r df /\ continent r = c /\ year r = y.
Proof.
  unfold select_continent_year. rewrite filter_In, andb_true_iff.
  now rewrite String.eqb_eq, Z.eqb_eq.
Qed.

Lemma firstn_incl (A : Type) (n : nat) (l : list A) (a : A) :
  In a (firstn n l) -> In a l.
Proof.
  revert l. induction n as [| n IH]; intros [| x t]; simpl; try tauto.
  intros [E | H]; auto.
Qed.

(** C1.  For every continent, year and metric the ranking returns: at
    most fifteen rows, each a row of the frame with the requested
    continent and year, in descending order of the metric; and these rows
    are the bars of the chart [create_bar_chart] builds from the
    selection. *)
Theorem rank_top15_sorted {pandas_sort : SortValues} (df : DataFrame)
    (c : string) (y : Z) (m : string) :
  is_metric m ->
  exists key rows,
    column m = Some key /\
    rank df c y m = Ok rows /\
    (List.length rows <= 15)%nat /\
    Forall (fun r => In r df /\ continent r = c /\ year r = y) rows /\
    Sorted (desc key) rows /\
    forall title0, exists fig,
      create_bar_chart (select_continent_year c y df) m title0 = Ok fig /\
      bars fig = List.length rows.
Proof.
  intros Hm. destruct (is_metric_column m Hm) as (key & Hcol & _).
  exists key, (head 15 (sort_values key (select_continent_year c y df))).
  unfold rank, sort_head, head. rewrite Hcol.
  repeat split.
  - apply firstn_le_length.
  - apply Forall_forall. intros r Hr.
    apply firstn_incl in Hr.
    apply (Permutation_in _ (Permutation_sym (sort_values_perm key _))) in Hr.
    now apply select_continent_year_spec.
  - apply Sorted_firstn, sort_values_sorted.
  - intros title0. unfold create_bar_chart, sort_head, head. rewrite Hcol.
    cbn [bind].
    destruct (px_bar (firstn 15 (sort_values key (select_continent_year c y df))) m)
      as [fig |] eqn:E.
    + exists (update_layout_bar fig). split; [reflexivity |].
      apply px_bar_bars in E. exact E.
    + unfold px_bar in E. rewrite Hcol in E. discriminate.
Qed.

Lemma rank_top15_sorted_witness :
  is_metric "pop" /\
  exists key rows,
    column "pop" = Some key /\
    @rank StableSort sample_df "Asia" 1952 "pop" = Ok rows /\
    (List.length rows <= 15)%nat /\
    Forall (fun r => In r sample_df /\ continent r = "Asia" /\ year r = 1952)
           rows /\
    Sorted (desc key) rows /\
    forall title0, exists fig,
      @create_bar_chart StableSort
        (select_continent_year "Asia" 1952 sample_df) "pop" title0 = Ok fig /\
      bars fig = List.length rows.
Proof.
  split.
  - left. reflexivity.
  - apply (@rank_top15_sorted StableSort sample_df "Asia" 1952 "pop").
    left. reflexivity.
Defined.

(** The three rows of Asia in 1952, largest population first. *)
Example rank_sample_countries :
  match @rank StableSort sample_df "Asia" 1952 "pop" with
  | Ok rows => map country rows
  | Raise _ => []
  end = ["Bangladesh"; "Afghanistan"; "Bahrain"].
Proof. reflexivity. Qed.

(* ================================================================= *)
(** ** Rankings without ties *)

Lemma desc_head_max (key : Row -> cell) (a : Row) (l : DataFrame) :
  Sorted (desc key) (a :: l) ->
  forall b, In b (a :: l) -> cell_leb (key b) (key a) = true.
Proof.
  intros Hs b [<- | Hb].
  - apply cell_leb_refl.
  - apply (Sorted_StronglySorted (desc_trans key)) in Hs.
    apply StronglySorted_inv in Hs. destruct Hs as [_ Hall].
    rewrite Forall_forall in Hall. now apply Hall.
Qed.

(** Two descending arrangements of the same rows coincide when rows that
    tie on the key are equal rows. *)
Lemma descending_arrangement_unique (key : Row -> cell) (l1 l2 : DataFrame) :
  Sorted (desc key) l1 -> Sorted (desc key) l2 -> Permutation l1 l2 ->
  (forall a b, In a l1 -> In b l1 -> cell_tie (key a) (key b) = true -> a = b) ->
  l1 = l2.
Proof.
  revert l2. induction l1 as [| a t IH]; intros l2 H1 H2 HP Hties.
  - apply Permutation_nil in HP. now subst.
  - destruct l2 as [| b u].
    + apply Permutation_sym, Permutation_nil in HP. discriminate.
    + assert (Hab : a = b).
      { apply Hties.
        - now left.
        - apply (Permutation_in _ (Permutation_sym HP)). now left.
        - unfold cell_tie. apply andb_true_iff. split.
          + apply (desc_head_max key b u H2).
            apply (Permutation_in _ HP). now left.
          + apply (desc_head_max key a t H1).
            apply (Permutation_in _ (Permutation_sym HP)). now left. }
      subst b. f_equal.
      apply IH.
      * now apply Sorted_inv in H1.
      * now apply Sorted_inv in H2.
      * now apply Permutation_cons_inv in HP.
      * intros x z Hx Hz. apply Hties; now right.
Qed.

Lemma sample_asia_1952_no_ties (a b : Row) :
  In a (select_continent_year "Asia" 1952 sample_df) ->
  In b (select_continent_year "Asia" 1952 sample_df) ->
  cell_tie (CInt (pop a)) (CInt (pop b)) = true -> a = b.
Proof.
  intros Ha Hb.
  cbv [select_continent_year sample_df filter continent year String.eqb
       Ascii.eqb Bool.eqb Z.eqb Pos.eqb andb] in Ha, Hb.
  simpl in Ha, Hb.
  destruct Ha as [<- | [<- | [<- | []]]];
    destruct Hb as [<- | [<- | [<- | []]]];
    intros H; try reflexivity; vm_compute in H; discriminate.
Qed.

(* ================================================================= *)
(** ** Empty selections, titles *)

Lemma select_continent_year_none (c : string) (y : Z) (df : DataFrame) :
  (forall r, In r df -> ~ (continent r = c /\ year r = y)) ->
  select_continent_year c y df = [].
Proof.
  intros H. destruct (select_continent_year c y df) as [| r t] eqn:E.
  - reflexivity.
  - exfalso. assert (Hr : In r (select_continent_year c y df))
      by (rewrite E; now left).
    apply select_continent_year_spec in Hr.
    destruct Hr as (Hin & Hc & Hy). exact (H r Hin (conj Hc Hy)).
Qed.

Lemma sort_values_nil {pandas_sort : SortValues} (key : Row -> cell) :
  sort_values key [] = [].
Proof.
  apply Permutation_nil, sort_values_perm.
Qed.

Lemma create_bar_chart_succeeds {pandas_sort : SortValues} (df : DataFrame)
    (m title0 : string) :
  is_metric m -> succeeds (create_bar_chart df m title0).
Proof.
  intros Hm. destruct (is_metric_column m Hm) as (key & Hcol & _).
  unfold create_bar_chart, sort_head, px_bar. rewrite Hcol. cbn [bind].
  eexists. reflexivity.
Qed.

(** C3.  For every continent, year and metric the ranking and the chart
    builder return (no exception), and so do the three chart functions
    of the panels; when no row of the frame has the requested continent
    and year, the ranking is the empty frame and the chart built from the
    empty frame is a figure without traces, hence with zero bars. *)
Theorem empty_selection_empty_chart {pandas_sort : SortValues}
    (df : DataFrame) (c : string) (y : Z) (m : string) :
  is_metric m ->
  (succeeds (rank df c y m) /\
   (forall sub title0, succeeds (create_bar_chart sub m title0)) /\
   succeeds (create_population_chart df c y) /\
   succeeds (create_gdp_chart df c y) /\
   succeeds (create_life_exp_chart df c y)) /\
  ((forall r, In r df -> ~ (continent r = c /\ year r = y)) ->
   rank df c y m = Ok [] /\
   forall title0, exists fig,
     create_bar_chart (select_continent_year c y df) m title0 = Ok fig /\
     create_bar_chart [] m title0 = Ok fig /\
     data fig = [] /\ bars fig = 0%nat).
Proof.
  intros Hm. destruct (is_metric_column m Hm) as (key & Hcol & _).
  split.
  - split; [| split; [| repeat split]].
    + unfold rank, sort_head. rewrite Hcol. eexists. reflexivity.
    + intros sub title0. now apply create_bar_chart_succeeds.
    + apply create_bar_chart_succeeds. now left.
    + apply create_bar_chart_succeeds. right. now left.
    + apply create_bar_chart_succeeds. right. now right.
  - intros Hnone.
    unfold rank. rewrite (select_continent_year_none c y df Hnone).
    unfold create_bar_chart, sort_head, px_bar, head. rewrite Hcol.
    rewrite sort_values_nil. cbn [firstn bind].
    split; [reflexivity |].
    intros title0. eexists. repeat split.
Qed.

Lemma empty_selection_empty_chart_witness :
  is_metric "lifeExp" /\
  (forall r, In r sample_df -> ~ (continent r = "Africa" /\ year r = 1952)) /\
  @rank StableSort sample_df "Africa" 1952 "lifeExp" = Ok [] /\
  succeeds (@create_life_exp_chart StableSort sample_df "Africa" 1952).
Proof.
  assert (Hm : is_metric "lifeExp") by (right; right; reflexivity).
  assert (Hnone : forall r, In r sample_df ->
                            ~ (continent r = "Africa" /\ year r = 1952)).
  { intros r Hr [Hc _]. simpl in Hr.
    repeat (destruct Hr as [<- | Hr]; [discriminate |]). exact Hr. }
  pose proof (@empty_selection_empty_chart StableSort sample_df "Africa" 1952
                "lifeExp" Hm) as [(_ & _ & _ & _ & Hlife) Hempty].
  destruct (Hempty Hnone) as [Hrank _].
  repeat split; assumption.
Defined.

(** C4 (the code drops the title).  Every figure [create_bar_chart]
    returns has no title, whatever string the caller passes; so the
    population chart for Asia in 1952 carries no title although
    [create_population_chart] composes one. *)
Theorem create_bar_chart_drops_title {pandas_sort : SortValues}
    (df : DataFrame) (c : string) (y : Z) :
  (forall sub m title0 fig,
      create_bar_chart sub m title0 = Ok fig -> title (layout fig) = None) /\
  exists fig,
    create_population_chart df c y = Ok fig /\ title (layout fig) = None.
Proof.
  assert (H : forall sub m title0 fig,
             create_bar_chart sub m title0 = Ok fig ->
             title (layout fig) = None).
  { intros sub m title0 fig. unfold create_bar_chart, sort_head, px_bar.
    destruct (column m) as [key |]; cbn [bind]; [| discriminate].
    intros [= <-]. reflexivity. }
  split; [exact H |].
  destruct (create_bar_chart_succeeds
              (select_continent_year c y df) "pop"
              ("Top 15 Populations in " ++ c ++ " (" ++ str_of_Z y ++ ")")
              (or_introl eq_refl)) as [fig Hfig].
  exists fig. split; [exact Hfig |]. exact (H _ _ _ _ Hfig).
Qed.

Lemma create_bar_chart_drops_title_witness :
  exists fig,
    @create_population_chart StableSort sample_df "Asia" 1952 = Ok fig /\
    bars fig = 3%nat /\
    title (layout fig) = None.
Proof.
  destruct (@create_bar_chart_drops_title StableSort sample_df "Asia" 1952)
    as [Hall _].
  eexists. split; [reflexivity |]. split; [reflexivity |].
  apply (Hall (select_continent_year "Asia" 1952 sample_df) "pop"
              "Top 15 Populations in Asia (1952)").
  reflexivity.
Defined.

(* ================================================================= *)
(** ** The map *)

Lemma select_year_spec (y : Z) (df : DataFrame) (r : Row) :
  In r (select_year y df) <-> In r df /\ year r = y.
Proof.
  unfold select_year. now rewrite filter_In, Z.eqb_eq.
Qed.

Lemma find_all_false (A : Type) (f : A -> bool) (l : list A) :
  (forall a, In a l -> f a = false) -> find f l = None.
Proof.
  induction l as [| a t IH]; intros H; simpl; [reflexivity |].
  rewrite (H a (or_introl eq_refl)). apply IH. intros b Hb. apply H. now right.
Qed.

Lemma create_choropleth_map_points (df : DataFrame) (m : string) (y : Z)
    (color : Row -> cell) :
  column m = Some color ->
  numeric_column m = true ->
  exists fig,
    create_choropleth_map df m y = Ok fig /\
    points fig =
      map (fun r => (iso_alpha r, color r, (CStr (country r), color r)))
          (select_year y df).
Proof.
  intros Hcol Hnum.
  unfold create_choropleth_map, px_choropleth. rewrite Hcol, Hnum. cbn [bind].
  eexists. split; [reflexivity |].
  unfold points, update_layout_map.
  cbn [data flat_map trace_points choropleth_trace].
  rewrite app_nil_r, !combine_map. reflexivity.
Qed.

(** C5.  For each of the three metrics and every year the map is built
    (no exception) and its points are exactly the rows of the frame with
    that year, in frame order, none dropped and none reordered: each
    point is located by the row's ISO code and coloured by the row's
    metric value.  An ISO code with no row in that year has no point, so
    the map holds no value for it (not a zero). *)
Theorem choropleth_plots_year_slice (df : DataFrame) (m : string) (y : Z) :
  is_metric m ->
  exists color fig,
    column m = Some color /\
    create_choropleth_map df m y = Ok fig /\
    points fig =
      map (fun r => (iso_alpha r, color r, (CStr (country r), color r)))
          (filter (fun r => year r =? y) df) /\
    (forall iso,
        (forall r, In r df -> year r = y -> iso_alpha r <> iso) ->
        map_value fig iso = None) /\
    (forall r, In r df -> year r = y ->
               exists v, map_value fig (iso_alpha r) = Some v).
Proof.
  intros Hm. destruct (is_metric_column m Hm) as (color & Hcol & Hnum).
  destruct (create_choropleth_map_points df m y color Hcol Hnum)
    as (fig & Hfig & Hpts).
  exists color, fig. split; [exact Hcol |]. split; [exact Hfig |].
  split; [exact Hpts |]. split.
  - intros iso Hiso. unfold map_value. rewrite Hpts.
    rewrite find_all_false; [reflexivity |].
    intros p Hp. apply in_map_iff in Hp. destruct Hp as (r & <- & Hr).
    apply select_year_spec in Hr. destruct Hr as [Hin Hy]. simpl.
    destruct (String.eqb (iso_alpha r) iso) eqn:E; [| reflexivity].
    apply String.eqb_eq in E. exfalso. exact (Hiso r Hin Hy E).
  - intros r Hin Hy. unfold map_value. rewrite Hpts.
    destruct (find (fun p => String.eqb (fst (fst p)) (iso_alpha r))
                (map (fun r0 => (iso_alpha r0, color r0,
                                 (CStr (country r0), color r0)))
                     (select_year y df))) as [p |] eqn:E.
    + eexists. reflexivity.
    + exfalso.
      assert (Hp : In (iso_alpha r, color r, (CStr (country r), color r))
                      (map (fun r0 => (iso_alpha r0, color r0,
                                       (CStr (country r0), color r0)))
                           (select_year y df))).
      { apply in_map_iff. exists r. split; [reflexivity |].
        now apply select_year_spec. }
      pose proof (find_none _ _ E _ Hp) as Hf. simpl in Hf.
      rewrite String.eqb_refl in Hf. discriminate.
Qed.

Lemma choropleth_plots_year_slice_witness :
  is_metric "gdpPercap" /\
  exists color fig,
    column "gdpPercap" = Some color /\
    create_choropleth_map sample_df "gdpPercap" 1957 = Ok fig /\
    points fig =
      map (fun r => (iso_alpha r, color r, (CStr (country r), color r)))
          (filter (fun r => year r =? 1957) sample_df) /\
    (forall iso,
        (forall r, In r sample_df -> year r = 1957 -> iso_alpha r <> iso) ->
        map_value fig iso = None) /\
    (forall r, In r sample_df -> year r = 1957 ->
               exists v, map_value fig (iso_alpha r) = Some v).
Proof.
  split.
  - right. left. reflexivity.
  - apply (choropleth_plots_year_slice sample_df "gdpPercap" 1957).
    right. left. reflexivity.
Defined.

(** In 1957 the sample holds Afghanistan only: its value is on the map,
    Albania has none. *)
Example map_sample_1957 :
  match create_choropleth_map sample_df "gdpPercap" 1957 with
  | Ok fig => (map_value fig "AFG", map_value fig "ALB")
  | Raise _ => (None, None)
  end = (Some (CFloat (8208530 # 10000)), None).
Proof. reflexivity. Qed.

(* ================================================================= *)
(** ** Update cycles *)

Section Cycles.

Context {pandas_sort : SortValues}.
Variable df : DataFrame.

Lemma step_publishes (e : Event) (s : State) :
  step df e s =
  publish (panel (target e))
          (recompute df (target e) (set_value e (values s)))
          (mkState (set_value e (values s)) (figures s)).
Proof.
  destruct e; reflexivity.
Qed.

Lemma values_publish (g : Graph) (r : result Figure) (s : State) :
  values (publish g r s) = values s.
Proof.
  destruct r; reflexivity.
Qed.

Lemma values_step (e : Event) (s : State) :
  values (step df e s) = set_value e (values s).
Proof.
  rewrite step_publishes. apply values_publish.
Qed.

Lemma set_value_twice (e : Event) (vs : Values) :
  set_value e (set_value e vs) = set_value e vs.
Proof.
  destruct e; reflexivity.
Qed.

Lemma get_set_value (e : Event) (vs : Values) :
  get_value (target e) (set_value e vs) = new_value e.
Proof.
  destruct e; reflexivity.
Qed.

Lemma get_set_value_other (e : Event) (c : Control) (vs : Values) :
  c <> target e -> get_value c (set_value e vs) = get_value c vs.
Proof.
  destruct e, c; simpl; intros N; try reflexivity; now contradiction N.
Qed.

Lemma get_set_figure_other (g g' : Graph) (f : Figure) (fs : Figures) :
  g' <> g -> get_figure g' (set_figure g f fs) = get_figure g' fs.
Proof.
  destruct g, g'; simpl; intros N; try reflexivity; now contradiction N.
Qed.

Lemma get_set_figure (g : Graph) (f : Figure) (fs : Figures) :
  get_figure g (set_figure g f fs) = Some f.
Proof.
  destruct g; reflexivity.
Qed.

Lemma set_figure_twice (g : Graph) (f : Figure) (fs : Figures) :
  set_figure g f (set_figure g f fs) = set_figure g f fs.
Proof.
  destruct g; reflexivity.
Qed.

Lemma callback_recompute (cb : Callback) (c : Control) (vs : Values) :
  In cb (callbacks df) -> listens c cb = true ->
  handler cb vs = recompute df c vs /\ output cb = panel c.
Proof.
  intros Hin. simpl in Hin.
  destruct Hin as [<- | [<- | [<- | [<- | []]]]];
    destruct c; simpl; intros L; try discriminate; split; reflexivity.
Qed.

End Cycles.

Lemma step_other_figure {pandas_sort : SortValues} (df : DataFrame)
    (e : Event) (s : State) (g : Graph) :
  g <> panel (target e) ->
  get_figure g (figures (step df e s)) = get_figure g (figures s).
Proof.
  intros Hg. rewrite step_publishes.
  destruct (recompute df (target e) (set_value e (values s))); simpl.
  - now apply get_set_figure_other.
  - reflexivity.
Qed.

(** C6.  An update cycle touches its own panel only: after any event,
    every graph other than the graph of the event's selector shows the
    figure it showed before, and every other selector holds the value it
    held before. *)
Theorem step_leaves_other_panels {pandas_sort : SortValues} (df : DataFrame)
    (e : Event) (s : State) :
  (forall g, g <> panel (target e) ->
             get_figure g (figures (step df e s)) = get_figure g (figures s)) /\
  (forall c, c <> target e ->
             get_value c (values (step df e s)) = get_value c (values s)).
Proof.
  split.
  - intros g Hg. now apply step_other_figure.
  - intros c Hc. rewrite values_step. now apply get_set_value_other.
Qed.

Lemma step_leaves_other_panels_witness :
  get_figure gdp
    (figures (@step StableSort sample_df (Change_cont_pop "Europe")
                (@initial_state StableSort sample_df)))
  = get_figure gdp (figures (@initial_state StableSort sample_df)) /\
  get_value cont_gdp
    (values (@step StableSort sample_df (Change_cont_pop "Europe")
               (@initial_state StableSort sample_df)))
  = CStr "Asia".
Proof.
  destruct (@step_leaves_other_panels StableSort sample_df
              (Change_cont_pop "Europe") (@initial_state StableSort sample_df))
    as [Hfig Hval].
  split.
  - apply Hfig. discriminate.
  - rewrite Hval by discriminate. reflexivity.
Defined.

(** C7.  The update cycle is a function of the filter values alone: a
    handler's result depends only on the values of the selectors it
    lists as inputs, a figure it returns is the figure published, and
    running the cycle again with the same event gives the same state,
    figure for figure. *)
Theorem update_cycle_deterministic {pandas_sort : SortValues} (df : DataFrame) :
  (forall cb vs1 vs2,
      In cb (callbacks df) ->
      (forall c, In c (inputs cb) -> get_value c vs1 = get_value c vs2) ->
      handler cb vs1 = handler cb vs2) /\
  (forall cb e s fig,
      In cb (callbacks df) -> listens (target e) cb = true ->
      handler cb (values (step df e s)) = Ok fig ->
      get_figure (output cb) (figures (step df e s)) = Some fig) /\
  (forall e s, step df e (step df e s) = step df e s).
Proof.
  split; [| split].
  - intros cb vs1 vs2 Hin Hagree. simpl in Hin.
    destruct Hin as [<- | [<- | [<- | [<- | []]]]]; simpl in *.
    + pose proof (Hagree cont_pop (or_introl eq_refl)) as H1.
      pose proof (Hagree year_pop (or_intror (or_introl eq_refl))) as H2.
      simpl in H1, H2. congruence.
    + pose proof (Hagree cont_gdp (or_introl eq_refl)) as H1.
      pose proof (Hagree year_gdp (or_intror (or_introl eq_refl))) as H2.
      simpl in H1, H2. congruence.
    + pose proof (Hagree cont_life_exp (or_introl eq_refl)) as H1.
      pose proof (Hagree year_life_exp (or_intror (or_introl eq_refl))) as H2.
      simpl in H1, H2. congruence.
    + pose proof (Hagree var_map (or_introl eq_refl)) as H1.
      pose proof (Hagree year_map (or_intror (or_introl eq_refl))) as H2.
      simpl in H1, H2. congruence.
  - intros cb e s fig Hin Hl.
    destruct (callback_recompute df cb (target e) (values (step df e s)) Hin Hl)
      as [-> ->].
    rewrite values_step, step_publishes. intros ->. simpl.
    apply get_set_figure.
  - intros e s. rewrite (step_publishes df e (step df e s)).
    rewrite values_step, set_value_twice.
    rewrite step_publishes.
    destruct (recompute df (target e) (set_value e (values s))) as [fig | err];
      simpl.
    + now rewrite set_figure_twice.
    + reflexivity.
Qed.

Lemma update_cycle_deterministic_witness :
  @step StableSort sample_df (Change_year_map 1957)
    (@step StableSort sample_df (Change_year_map 1957)
       (@initial_state StableSort sample_df))
  = @step StableSort sample_df (Change_year_map 1957)
      (@initial_state StableSort sample_df) /\
  exists fig,
    get_figure choropleth_map
      (figures (@step StableSort sample_df (Change_year_map 1957)
                  (@initial_state StableSort sample_df))) = Some fig /\
    create_choropleth_map sample_df "lifeExp" 1957 = Ok fig.
Proof.
  destruct (@update_cycle_deterministic StableSort sample_df)
    as (_ & Hpub & Hidem).
  split; [apply Hidem |].
  eexists. split.
  - apply (Hpub (mkCallback choropleth_map [var_map; year_map]
                   (fun vs => @update_choropleth_map sample_df
                                (val_var_map vs) (val_year_map vs)))
                (Change_year_map 1957)).
    + simpl. right. right. right. left. reflexivity.
    + reflexivity.
    + reflexivity.
  - reflexivity.
Defined.

(* ================================================================= *)
(** ** The table, the selectors, values outside the options *)

Lemma run_keeps_dataset {pandas_sort : SortValues} (df : DataFrame)
    (es : list Event) (s : State) :
  get_figure dataset (figures (run df es s)) = get_figure dataset (figures s).
Proof.
  revert s. induction es as [| e t IH]; intros s; [reflexivity |].
  change (run df (e :: t) s) with (run df t (step df e s)).
  rewrite IH. apply step_other_figure.
  destruct e; discriminate.
Qed.

(** C8.  The table built in the layout has the frame's columns as its
    header, in the frame's order, one cell column per header entry, and
    every cell column has as many entries as the frame has rows; it is
    the figure of the "dataset" graph when the page loads and after any
    sequence of events. *)
Theorem dataset_table_complete {pandas_sort : SortValues} (df : DataFrame) :
  (exists cells,
      data (dataset_table df) = [Table columns "left" cells "left"] /\
      cells = [ map (fun r => CStr (country r)) df;
                map (fun r => CStr (continent r)) df;
                map (fun r => CInt (year r)) df;
                map (fun r => CFloat (lifeExp r)) df;
                map (fun r => CInt (pop r)) df;
                map (fun r => CFloat (gdpPercap r)) df;
                map (fun r => CStr (iso_alpha r)) df;
                map (fun r => CInt (iso_num r)) df ] /\
      List.length cells = List.length columns /\
      Forall (fun col => List.length col = List.length df) cells) /\
  (forall es,
      get_figure dataset (figures (run df es (initial_state df)))
      = Some (dataset_table df)).
Proof.
  split.
  - eexists. split; [reflexivity |]. split; [reflexivity |].
    split; [reflexivity |].
    repeat constructor; apply length_map.
  - intros es. rewrite run_keeps_dataset.
    unfold initial_state. simpl.
    repeat match goal with
           | |- context [publish ?g ?r ?s] =>
               destruct r; cbn [publish set_figure figures values]
           end; reflexivity.
Qed.

(** C9 (as stated, refuted).  "Atlantis" is not among the options of the
    population panel's continent selector, yet the update cycle for it
    goes through: the selector's value becomes "Atlantis" and the
    population graph, which showed three bars, shows a new figure with
    none. *)
Lemma out_of_options_event_not_rejected :
  in_options sample_df (Change_cont_pop "Atlantis") = false /\
  get_value cont_pop (values (@initial_state StableSort sample_df))
  = CStr "Asia" /\
  get_value cont_pop
    (values (@step StableSort sample_df (Change_cont_pop "Atlantis")
               (@initial_state StableSort sample_df)))
  = CStr "Atlantis" /\
  option_map bars
    (get_figure population (figures (@initial_state StableSort sample_df)))
  = Some 3%nat /\
  option_map bars
    (get_figure population
       (figures (@step StableSort sample_df (Change_cont_pop "Atlantis")
                   (@initial_state StableSort sample_df))))
  = Some 0%nat /\
  @step StableSort sample_df (Change_cont_pop "Atlantis")
    (@initial_state StableSort sample_df)
  <> @initial_state StableSort sample_df.
Proof.
  repeat split; try reflexivity.
  intros H. apply (f_equal (fun s => get_value cont_pop (values s))) in H.
  vm_compute in H. discriminate.
Qed.

(** C9 (amended).  No event is rejected.  Whatever value an event
    carries, in the options or not, the selector takes it and the
    panel's handler runs on the updated values; on the three ranking
    panels the handler always returns and its figure is published, on
    the map panel the figure is published whenever the handler
    returns. *)
Theorem every_event_is_applied {pandas_sort : SortValues} (df : DataFrame)
    (e : Event) (s : State) :
  values (step df e s) = set_value e (values s) /\
  get_value (target e) (values (step df e s)) = new_value e /\
  (panel (target e) <> choropleth_map ->
   exists fig,
     recompute df (target e) (values (step df e s)) = Ok fig /\
     get_figure (panel (target e)) (figures (step df e s)) = Some fig) /\
  (forall fig,
      recompute df (target e) (values (step df e s)) = Ok fig ->
      get_figure (panel (target e)) (figures (step df e s)) = Some fig).
Proof.
  assert (Hpub : forall fig,
             recompute df (target e) (values (step df e s)) = Ok fig ->
             get_figure (panel (target e)) (figures (step df e s)) = Some fig).
  { intros fig. rewrite values_step, step_publishes. intros ->. simpl.
    apply get_set_figure. }
  split; [apply values_step |].
  split; [rewrite values_step; apply get_set_value |].
  split; [| exact Hpub].
  intros Hrank.
  assert (Hok : succeeds (recompute df (target e) (values (step df e s)))).
  { destruct e; simpl in *; try (now contradiction Hrank);
      apply create_bar_chart_succeeds;
      [left | left | right; left | right; left | right; right
       | right; right ]; reflexivity. }
  destruct Hok as [fig Hfig]. exists fig. split; [exact Hfig |].
  now apply Hpub.
Qed.

Lemma every_event_is_applied_witness :
  exists fig,
    @recompute StableSort sample_df cont_gdp
      (values (@step StableSort sample_df (Change_cont_gdp "Atlantis")
                 (@initial_state StableSort sample_df))) = Ok fig /\
    get_figure gdp
      (figures (@step StableSort sample_df (Change_cont_gdp "Atlantis")
                  (@initial_state StableSort sample_df))) = Some fig.
Proof.
  destruct (@every_event_is_applied StableSort sample_df
              (Change_cont_gdp "Atlantis")
              (@initial_state StableSort sample_df))
    as (_ & _ & Hrank & _).
  apply Hrank. discriminate.
Defined.

(** C10.  The continent selectors offer exactly the distinct continents
    of the frame, each once, and the year selectors exactly the distinct
    years of the frame, in ascending order; so every value a continent
    or year selector offers occurs in some row of the frame. *)
Theorem selector_options_from_dataset (df : DataFrame) :
  (forall c, In c (continents df) <-> exists r, In r df /\ continent r = c) /\
  NoDup (continents df) /\
  (forall y, In y (years df) <-> exists r, In r df /\ year r = y) /\
  StronglySorted Z.lt (years df) /\
  (forall d, In d (dropdowns df) ->
     match id d with
     | cont_pop | cont_gdp | cont_life_exp =>
         map snd (options d) = map CStr (continents df)
     | year_pop | year_gdp | year_life_exp | year_map =>
         map snd (options d) = map CInt (years df)
     | var_map => True
     end) /\
  (forall c v, In v (option_values df c) ->
     match c with
     | cont_pop | cont_gdp | cont_life_exp =>
         exists r, In r df /\ v = CStr (continent r)
     | year_pop | year_gdp | year_life_exp | year_map =>
         exists r, In r df /\ v = CInt (year r)
     | var_map => True
     end).
Proof.
  assert (Hc : forall c, In c (continents df) <->
                         exists r, In r df /\ continent r = c).
  { intros c. unfold continents.
    rewrite (unique_In _ _ String_eqb_spec), in_map_iff.
    split; intros (r & H1 & H2); exists r; tauto. }
  assert (Hy : forall y, In y (years df) <-> exists r, In r df /\ year r = y).
  { intros y. unfold years.
    rewrite sorted_In, (unique_In _ _ Z.eqb_eq), in_map_iff.
    split; intros (r & H1 & H2); exists r; tauto. }
  split; [exact Hc |].
  split; [apply unique_NoDup, String_eqb_spec |].
  split; [exact Hy |].
  split; [apply sorted_ascending, unique_NoDup, Z.eqb_eq |].
  split.
  - intros d Hd. simpl in Hd.
    repeat (destruct Hd as [<- | Hd];
            [simpl; rewrite ?map_map; simpl; auto |]).
    contradiction.
  - intros c v Hv. unfold option_values in Hv. simpl in Hv.
    destruct c; simpl in Hv; rewrite ?app_nil_r, ?map_map in Hv; simpl in Hv;
      try exact I;
      apply in_map_iff in Hv; destruct Hv as (x & <- & Hx);
      first [ apply Hc in Hx | apply Hy in Hx ];
      destruct Hx as (r & Hr & <-); exists r; split; auto.
Qed.

(** The sample's selectors. *)
Example sample_options :
  continents sample_df = ["Asia"; "Europe"; "Oceania"] /\
  years sample_df = [1952; 1957].
Proof. split; reflexivity. Qed.

Lemma selector_options_from_dataset_witness :
  In (CStr "Oceania") (option_values sample_df cont_life_exp) /\
  exists r, In r sample_df /\ CStr "Oceania" = CStr (continent r).
Proof.
  assert (Hin : In (CStr "Oceania") (option_values sample_df cont_life_exp)).
  { vm_compute. right. right. left. reflexivity. }
  split; [exact Hin |].
  destruct (selector_options_from_dataset sample_df)
    as (_ & _ & _ & _ & _ & Hopt).
  exact (Hopt cont_life_exp (CStr "Oceania") Hin).
Defined.

(* ================================================================= *)
(** ** A stable kind would keep frame order *)

Lemma Subseq_refl (A : Type) (l : list A) : Subseq l l.
Proof.
  induction l; constructor; assumption.
Qed.

Lemma Subseq_trans (A : Type) (l m n : list A) :
  Subseq l m -> Subseq m n -> Subseq l n.
Proof.
  intros H1 H2. revert l H1.
  induction H2 as [| a m n H2 IH | a m n H2 IH]; intros l H1.
  - exact H1.
  - inversion H1 as [| b l' m' H' | b l' m' H']; subst.
    + apply Subseq_keep. now apply IH.
    + apply Subseq_skip. now apply IH.
  - apply Subseq_skip. now apply IH.
Qed.

Lemma Subseq_filter (A : Type) (f : A -> bool) (l m : list A) :
  Subseq l m -> Subseq (filter f l) (filter f m).
Proof.
  induction 1 as [| a l m H IH | a l m H IH]; simpl.
  - constructor.
  - destruct (f a); [now apply Subseq_keep | exact IH].
  - destruct (f a); [now apply Subseq_skip | exact IH].
Qed.

Lemma Subseq_filter_self (A : Type) (f : A -> bool) (l : list A) :
  Subseq (filter f l) l.
Proof.
  induction l as [| a t IH]; simpl; [constructor |].
  destruct (f a); now constructor.
Qed.

Lemma Subseq_firstn (A : Type) (n : nat) (l : list A) : Subseq (firstn n l) l.
Proof.
  revert l. induction n as [| n IH]; intros [| a t]; simpl;
    try constructor; auto.
  clear. induction t; constructor; assumption.
Qed.

Lemma insert_desc_ties (key : Row -> cell) (v : cell) (x : Row) (l : DataFrame) :
  filter (fun r => cell_tie (key r) v) (insert_desc key x l)
  = filter (fun r => cell_tie (key r) v) (x :: l).
Proof.
  induction l as [| y t IH]; [reflexivity |].
  cbn [insert_desc]. destruct (cell_leb (key y) (key x)) eqn:E; [reflexivity |].
  cbn [filter] in *. rewrite IH.
  destruct (cell_tie (key x) v) eqn:Tx; [| reflexivity].
  destruct (cell_tie (key y) v) eqn:Ty; [| reflexivity].
  exfalso. unfold cell_tie in Tx, Ty.
  apply andb_true_iff in Tx, Ty. destruct Tx as [_ Hvx], Ty as [Hyv _].
  rewrite (cell_leb_trans _ _ _ Hyv Hvx) in E. discriminate.
Qed.

Lemma stable_sort_ties (key : Row -> cell) (v : cell) (df : DataFrame) :
  filter (fun r => cell_tie (key r) v) (stable_sort key df)
  = filter (fun r => cell_tie (key r) v) df.
Proof.
  induction df as [| x t IH]; [reflexivity |].
  cbn [stable_sort fold_right]. rewrite insert_desc_ties.
  cbn [filter]. fold (stable_sort key t). now rewrite IH.
Qed.

(** With a stable sort in place of the default kind, the ranking does
    keep frame order among ties. *)
Lemma stable_rank_keeps_frame_order (df : DataFrame) (c : string) (y : Z)
    (m : string) (key : Row -> cell) (rows : DataFrame) :
  column m = Some key ->
  @rank StableSort df c y m = Ok rows ->
  keeps_frame_order key rows df.
Proof.
  unfold rank, sort_head. intros Hcol Hrank v. rewrite Hcol in Hrank.
  assert (Hrows : rows = firstn 15 (stable_sort key
                                      (select_continent_year c y df)))
    by (unfold head in Hrank; cbn [sort_values StableSort] in Hrank;
        congruence).
  rewrite Hrows.
  eapply Subseq_trans.
  - apply Subseq_filter, Subseq_firstn.
  - rewrite stable_sort_ties.
    apply Subseq_filter, Subseq_filter_self.
Qed.

(* ================================================================= *)
(** ** More on the ranking *)

Lemma StronglySorted_app_le (A : Type) (R : A -> A -> Prop) (l1 l2 : list A) :
  StronglySorted R (l1 ++ l2) ->
  forall a b, In a l1 -> In b l2 -> R a b.
Proof.
  induction l1 as [| x t IH]; simpl; intros H a b Ha Hb; [contradiction |].
  apply StronglySorted_inv in H. destruct H as [Hs Hall].
  destruct Ha as [<- | Ha].
  - rewrite Forall_forall in Hall. apply Hall, in_or_app. now right.
  - now apply IH.
Qed.

(** Number of bars.  The chart [create_bar_chart] builds for one of the
    three metrics has as many bars as the frame it is given has rows, up
    to fifteen. *)
Theorem create_bar_chart_bar_count {pandas_sort : SortValues}
    (df : DataFrame) (m title0 : string) :
  is_metric m ->
  exists fig,
    create_bar_chart df m title0 = Ok fig /\
    bars fig = Nat.min 15 (List.length df).
Proof.
  intros Hm. destruct (is_metric_column m Hm) as (key & Hcol & _).
  unfold create_bar_chart, sort_head, head. rewrite Hcol. cbn [bind].
  destruct (px_bar (firstn 15 (sort_values key df)) m) as [fig |] eqn:E.
  - exists (update_layout_bar fig). split; [reflexivity |].
    apply px_bar_bars in E.
    change (bars (update_layout_bar fig)) with (bars fig).
    rewrite E, length_firstn.
    now rewrite <- (Permutation_length (sort_values_perm key df)).
  - unfold px_bar in E. rewrite Hcol in E. discriminate.
Qed.

Lemma create_bar_chart_bar_count_witness :
  is_metric "gdpPercap" /\
  exists fig,
    @create_bar_chart StableSort tied_df "gdpPercap" "" = Ok fig /\
    bars fig = 15%nat.
Proof.
  split; [right; left; reflexivity |].
  destruct (@create_bar_chart_bar_count StableSort tied_df "gdpPercap" ""
              (or_intror (or_introl eq_refl))) as (fig & Hfig & Hbars).
  exists fig. split; [exact Hfig |]. exact Hbars.
Defined.

(** The cut keeps the largest.  The rows [sort_head] returns and the
    rows it drops together are the rows it was given; no dropped row
    has a larger key than a kept one; and nothing is dropped from a
    frame of at most fifteen rows. *)
Theorem sort_head_keeps_largest {pandas_sort : SortValues}
    (df : DataFrame) (y_col : string) (key : Row -> cell) (rows : DataFrame) :
  column y_col = Some key ->
  sort_head df y_col = Ok rows ->
  exists dropped,
    Permutation df (rows ++ dropped) /\
    (forall r r', In r rows -> In r' dropped -> cell_le (key r') (key r)) /\
    ((List.length df <= 15)%nat -> dropped = []).
Proof.
  unfold sort_head. intros Hcol Hrows. rewrite Hcol in Hrows.
  assert (Hr : rows = firstn 15 (sort_values key df))
    by (unfold head in Hrows; congruence).
  exists (skipn 15 (sort_values key df)). rewrite Hr. split; [| split].
  - rewrite firstn_skipn. apply sort_values_perm.
  - intros r r' Hin Hin'.
    apply (StronglySorted_app_le _ (desc key)
             (firstn 15 (sort_values key df))
             (skipn 15 (sort_values key df))); try assumption.
    rewrite firstn_skipn.
    apply (Sorted_StronglySorted (desc_trans key)), sort_values_sorted.
  - intros Hlen. apply skipn_all2.
    now rewrite <- (Permutation_length (sort_values_perm key df)).
Qed.

Lemma sort_head_keeps_largest_witness :
  exists dropped,
    Permutation tied_df
      (firstn 15 (stable_sort (fun r => CFloat (lifeExp r)) tied_df)
       ++ dropped) /\
    List.length dropped = 3%nat.
Proof.
  destruct (@sort_head_keeps_largest StableSort tied_df "lifeExp"
              (fun r => CFloat (lifeExp r))
              (firstn 15 (stable_sort (fun r => CFloat (lifeExp r)) tied_df))
              eq_refl eq_refl) as (dropped & Hperm & _ & _).
  exists dropped. split; [exact Hperm |].
  apply Permutation_length in Hperm.
  rewrite length_app in Hperm.
  assert (H18 : List.length tied_df = 18%nat) by reflexivity.
  assert (H15 : List.length
                  (firstn 15 (stable_sort (fun r => CFloat (lifeExp r))
                                tied_df)) = 15%nat) by reflexivity.
  rewrite H18, H15 in Hperm. lia.
Defined.

(* ================================================================= *)
(** ** More on update cycles *)

Lemma recompute_same_panel {pandas_sort : SortValues} (df : DataFrame)
    (c c' : Control) (vs : Values) :
  panel c = panel c' -> recompute df c vs = recompute df c' vs.
Proof.
  destruct c, c'; simpl; intros H; try discriminate; reflexivity.
Qed.

Lemma recompute_other_panel {pandas_sort : SortValues} (df : DataFrame)
    (c : Control) (e : Event) (vs : Values) :
  panel c <> panel (target e) ->
  recompute df c (set_value e vs) = recompute df c vs.
Proof.
  destruct c, e; simpl; intros H; try reflexivity; now contradiction H.
Qed.

Lemma ranking_recompute_succeeds {pandas_sort : SortValues} (df : DataFrame)
    (c : Control) (vs : Values) :
  panel c <> choropleth_map -> succeeds (recompute df c vs).
Proof.
  destruct c; simpl; intros H; try (now contradiction H);
    apply create_bar_chart_succeeds;
    [left | left | right; left | right; left | right; right | right; right];
    reflexivity.
Qed.

Lemma set_value_commute (e1 e2 : Event) (vs : Values) :
  target e1 <> target e2 ->
  set_value e1 (set_value e2 vs) = set_value e2 (set_value e1 vs).
Proof.
  destruct e1, e2; simpl; intros H; try reflexivity; now contradiction H.
Qed.

Lemma set_value_overwrite (e1 e2 : Event) (vs : Values) :
  target e1 = target e2 ->
  set_value e2 (set_value e1 vs) = set_value e2 vs.
Proof.
  destruct e1, e2; simpl; intros H; try discriminate; reflexivity.
Qed.

Lemma set_figure_commute (g1 g2 : Graph) (f1 f2 : Figure) (fs : Figures) :
  g1 <> g2 ->
  set_figure g1 f1 (set_figure g2 f2 fs) = set_figure g2 f2 (set_figure g1 f1 fs).
Proof.
  destruct g1, g2; simpl; intros H; try reflexivity; now contradiction H.
Qed.

Lemma set_figure_overwrite (g : Graph) (f1 f2 : Figure) (fs : Figures) :
  set_figure g f2 (set_figure g f1 fs) = set_figure g f2 fs.
Proof.
  destruct g; reflexivity.
Qed.

Lemma initial_state_up_to_date {pandas_sort : SortValues} (df : DataFrame) :
  up_to_date df (initial_state df).
Proof.
  pose (vs := mkValues "Asia" 1952 "Asia" 1952 "Asia" 1952 "lifeExp" 1952).
  destruct (ranking_recompute_succeeds df cont_pop vs) as [f1 H1];
    [discriminate |].
  destruct (ranking_recompute_succeeds df cont_gdp vs) as [f2 H2];
    [discriminate |].
  destruct (ranking_recompute_succeeds df cont_life_exp vs) as [f3 H3];
    [discriminate |].
  assert (H4 : exists f4, recompute df var_map vs = Ok f4).
  { simpl. unfold update_choropleth_map, create_choropleth_map, px_choropleth.
    simpl. eexists. reflexivity. }
  destruct H4 as [f4 H4].
  assert (Hinit : initial_state df =
                  mkState vs (mkFigures (Some (dataset_table df))
                                (Some f1) (Some f2) (Some f3) (Some f4))).
  { unfold initial_state, callbacks, fire_all, layout_state.
    cbn [fold_left handler output values].
    simpl in H1, H2, H3, H4. subst vs. cbn [val_cont_pop val_year_pop] in *.
    rewrite H1. cbn [publish values figures set_figure handler output
                       val_cont_gdp val_year_gdp fig_dataset fig_population
                       fig_gdp fig_life_expectancy fig_choropleth_map].
    rewrite H2. cbn [publish values figures set_figure handler output
                       val_cont_life_exp val_year_life_exp fig_dataset
                       fig_population fig_gdp fig_life_expectancy
                       fig_choropleth_map].
    rewrite H3. cbn [publish values figures set_figure handler output
                       val_var_map val_year_map fig_dataset
                       fig_population fig_gdp fig_life_expectancy
                       fig_choropleth_map].
    rewrite H4. reflexivity. }
  rewrite Hinit. split.
  - intros g. destruct g; simpl; eexists; reflexivity.
  - intros c fig Hc.
    destruct c;
      [ change (recompute df cont_pop vs = Ok fig) in Hc
      | change (recompute df cont_pop vs = Ok fig) in Hc
      | change (recompute df cont_gdp vs = Ok fig) in Hc
      | change (recompute df cont_gdp vs = Ok fig) in Hc
      | change (recompute df cont_life_exp vs = Ok fig) in Hc
      | change (recompute df cont_life_exp vs = Ok fig) in Hc
      | change (recompute df var_map vs = Ok fig) in Hc
      | change (recompute df var_map vs = Ok fig) in Hc ];
      cbn [panel figures get_figure fig_population fig_gdp
             fig_life_expectancy fig_choropleth_map];
      congruence.
Qed.

Lemma step_up_to_date {pandas_sort : SortValues} (df : DataFrame)
    (e : Event) (s : State) :
  up_to_date df s -> up_to_date df (step df e s).
Proof.
  intros [Hfig Hcur]. split.
  - intros g. rewrite step_publishes.
    destruct (recompute df (target e) (set_value e (values s))) as [f | err];
      simpl; [| apply Hfig].
    destruct (Hfig g) as [f0 Hf0].
    destruct g, (panel (target e)); simpl in *; eauto.
  - intros c fig. rewrite values_step. intros Hc.
    assert (Hdec : panel c = panel (target e) \/ panel c <> panel (target e))
      by (destruct (panel c), (panel (target e));
          (now left) || (right; discriminate)).
    destruct Hdec as [Heq | Hne].
    + rewrite (recompute_same_panel df c (target e) _ Heq) in Hc.
      rewrite Heq, step_publishes, Hc. simpl. apply get_set_figure.
    + rewrite (recompute_other_panel df c e _ Hne) in Hc.
      rewrite (step_other_figure df e s (panel c) Hne). now apply Hcur.
Qed.

(** What is shown is current.  After the page has loaded and after any
    sequence of selector changes, every graph has a figure, and each
    ranking graph shows the chart of its selectors' current values (the
    map too, whenever its handler returns on the current values). *)
Theorem shown_figures_are_current {pandas_sort : SortValues}
    (df : DataFrame) (es : list Event) :
  (forall g, exists fig,
      get_figure g (figures (run df es (initial_state df))) = Some fig) /\
  (forall c fig,
      recompute df c (values (run df es (initial_state df))) = Ok fig ->
      get_figure (panel c) (figures (run df es (initial_state df)))
      = Some fig) /\
  (forall c, panel c <> choropleth_map ->
      exists fig,
        recompute df c (values (run df es (initial_state df))) = Ok fig /\
        get_figure (panel c) (figures (run df es (initial_state df)))
        = Some fig).
Proof.
  assert (Hinv : up_to_date df (run df es (initial_state df))).
  { generalize (initial_state df) (initial_state_up_to_date df).
    induction es as [| e t IH]; intros s Hs; [exact Hs |].
    change (run df (e :: t) s) with (run df t (step df e s)).
    apply IH. now apply step_up_to_date. }
  destruct Hinv as [Hfig Hcur].
  split; [exact Hfig |]. split; [exact Hcur |].
  intros c Hc.
  destruct (ranking_recompute_succeeds df c
              (values (run df es (initial_state df))) Hc) as [fig Hfigc].
  exists fig. split; [exact Hfigc |]. now apply Hcur.
Qed.

Lemma shown_figures_are_current_witness :
  exists fig,
    @create_gdp_chart StableSort sample_df "Europe" 1952 = Ok fig /\
    get_figure gdp
      (figures (@run StableSort sample_df
                  [Change_cont_gdp "Europe"; Change_var_map "population";
                   Change_year_gdp 1952]
                  (@initial_state StableSort sample_df)))
    = Some fig.
Proof.
  destruct (@shown_figures_are_current StableSort sample_df
              [Change_cont_gdp "Europe"; Change_var_map "population";
               Change_year_gdp 1952]) as (_ & _ & Hrank).
  destruct (Hrank cont_gdp) as (fig & Hfig & Hshown); [discriminate |].
  exists fig. split; [exact Hfig | exact Hshown].
Defined.

(** Changes on different panels commute.  Two selector changes that
    belong to different panels lead to the same state in either
    order. *)
Theorem steps_on_different_panels_commute {pandas_sort : SortValues}
    (df : DataFrame) (e1 e2 : Event) (s : State) :
  panel (target e1) <> panel (target e2) ->
  step df e1 (step df e2 s) = step df e2 (step df e1 s).
Proof.
  intros Hp.
  assert (Ht : target e1 <> target e2) by (intros E; apply Hp; now rewrite E).
  assert (R1 : recompute df (target e1) (set_value e1 (set_value e2 (values s)))
               = recompute df (target e1) (set_value e1 (values s))).
  { rewrite (set_value_commute e1 e2 (values s) Ht).
    now apply recompute_other_panel. }
  assert (R2 : recompute df (target e2) (set_value e2 (set_value e1 (values s)))
               = recompute df (target e2) (set_value e2 (values s))).
  { rewrite <- (set_value_commute e1 e2 (values s) Ht).
    apply recompute_other_panel. intros E. apply Hp. now symmetry. }
  rewrite (step_publishes df e1 (step df e2 s)).
  rewrite (step_publishes df e2 (step df e1 s)).
  rewrite !values_step, R1, R2.
  rewrite (set_value_commute e1 e2 (values s) Ht).
  rewrite !step_publishes.
  destruct (recompute df (target e1) (set_value e1 (values s))) as [f1 | x1];
    destruct (recompute df (target e2) (set_value e2 (values s))) as [f2 | x2];
    simpl; try reflexivity.
  now rewrite set_figure_commute.
Qed.

Lemma steps_on_different_panels_commute_witness :
  @step StableSort sample_df (Change_year_map 1957)
    (@step StableSort sample_df (Change_cont_pop "Europe")
       (@initial_state StableSort sample_df))
  = @step StableSort sample_df (Change_cont_pop "Europe")
      (@step StableSort sample_df (Change_year_map 1957)
         (@initial_state StableSort sample_df)).
Proof.
  apply (@steps_on_different_panels_commute StableSort sample_df).
  discriminate.
Defined.

(** The last change wins.  On a ranking panel, a change of a selector
    followed by a second change of the same selector leaves the state
    the second change alone would leave. *)
Theorem second_change_overwrites {pandas_sort : SortValues}
    (df : DataFrame) (e1 e2 : Event) (s : State) :
  target e1 = target e2 ->
  panel (target e2) <> choropleth_map ->
  step df e2 (step df e1 s) = step df e2 s.
Proof.
  intros Ht Hrank.
  rewrite (step_publishes df e2 (step df e1 s)), values_step.
  rewrite (set_value_overwrite e1 e2 (values s) Ht).
  rewrite (step_publishes df e2 s).
  destruct (ranking_recompute_succeeds df (target e2)
              (set_value e2 (values s)) Hrank) as [f2 H2].
  rewrite H2. rewrite (step_publishes df e1 s). simpl.
  rewrite Ht.
  destruct (recompute df (target e2) (set_value e1 (values s))); simpl;
    [now rewrite set_figure_overwrite | reflexivity].
Qed.

Lemma second_change_overwrites_witness :
  @step StableSort sample_df (Change_year_pop 1957)
    (@step StableSort sample_df (Change_year_pop 2007)
       (@initial_state StableSort sample_df))
  = @step StableSort sample_df (Change_year_pop 1957)
      (@initial_state StableSort sample_df).
Proof.
  apply (@second_change_overwrites StableSort sample_df).
  - reflexivity.
  - discriminate.
Defined.

(* ================================================================= *)
(** ** Row order of the frame *)

Lemma ascending_unique (l1 l2 : list Z) :
  StronglySorted Z.lt l1 -> StronglySorted Z.lt l2 ->
  (forall x, In x l1 <-> In x l2) -> l1 = l2.
Proof.
  intros H1. revert l2.
  induction H1 as [| a t Hs IH Ha]; intros l2 H2 Hmem.
  - destruct l2 as [| b u]; [reflexivity |].
    exfalso. apply (Hmem b). now left.
  - destruct H2 as [| b u Hs2 Hb].
    + exfalso. apply (Hmem a). now left.
    + rewrite Forall_forall in Ha, Hb.
      assert (Hab : a = b).
      { destruct (proj1 (Hmem a) (or_introl eq_refl)) as [E | Hin];
          [now symmetry |].
        destruct (proj2 (Hmem b) (or_introl eq_refl)) as [E | Hin'];
          [exact E |].
        pose proof (Hb a Hin). pose proof (Ha b Hin'). lia. }
      subst b. f_equal. apply IH; [exact Hs2 |].
      intros x. split; intros Hx.
      * destruct (proj1 (Hmem x) (or_intror Hx)) as [E | Hin]; [| exact Hin].
        subst x. pose proof (Ha a Hx). lia.
      * destruct (proj2 (Hmem x) (or_intror Hx)) as [E | Hin]; [| exact Hin].
        subst x. pose proof (Hb a Hx). lia.
Qed.

Lemma filter_Permutation (A : Type) (f : A -> bool) (l m : list A) :
  Permutation l m -> Permutation (filter f l) (filter f m).
Proof.
  induction 1 as [| x l m H IH | x y l | l m n H1 IH1 H2 IH2]; simpl.
  - constructor.
  - destruct (f x); [now constructor | exact IH].
  - destruct (f x), (f y); try reflexivity. apply perm_swap.
  - now transitivity (filter f m).
Qed.

(** Selector options and row order.  Reordering the rows of the frame
    leaves the year options as they are, and can at most reorder the
    continent options. *)
Theorem options_under_row_reordering (df df' : DataFrame) :
  Permutation df df' ->
  years df = years df' /\ Permutation (continents df) (continents df').
Proof.
  intros HP. split.
  - apply ascending_unique.
    + apply sorted_ascending, unique_NoDup, Z.eqb_eq.
    + apply sorted_ascending, unique_NoDup, Z.eqb_eq.
    + intros y. unfold years.
      rewrite !sorted_In, !(unique_In _ _ Z.eqb_eq).
      split; apply Permutation_in;
        [| apply Permutation_sym]; now apply Permutation_map.
  - apply NoDup_Permutation.
    + apply unique_NoDup, String_eqb_spec.
    + apply unique_NoDup, String_eqb_spec.
    + intros c. unfold continents.
      rewrite !(unique_In _ _ String_eqb_spec).
      split; apply Permutation_in;
        [| apply Permutation_sym]; now apply Permutation_map.
Qed.

Lemma options_under_row_reordering_witness :
  years (rev sample_df) = [1952; 1957] /\
  Permutation (continents sample_df) (continents (rev sample_df)) /\
  continents (rev sample_df) <> continents sample_df.
Proof.
  destruct (options_under_row_reordering sample_df (rev sample_df)
              (Permutation_rev sample_df)) as [Hy Hc].
  split; [rewrite <- Hy; reflexivity |].
  split; [exact Hc |].
  vm_compute. discriminate.
Defined.

(** Ranking and row order.  When no two distinct rows selected for a
    continent and year tie on the metric, reordering the rows of the
    frame does not change the ranking. *)
Theorem rank_under_row_reordering {pandas_sort : SortValues}
    (df df' : DataFrame) (c : string) (y : Z) (m : string)
    (key : Row -> cell) :
  column m = Some key ->
  Permutation df df' ->
  (forall a b,
      In a (select_continent_year c y df) ->
      In b (select_continent_year c y df) ->
      cell_tie (key a) (key b) = true -> a = b) ->
  rank df c y m = rank df' c y m.
Proof.
  intros Hcol HP Hties. unfold rank, sort_head. rewrite Hcol. do 2 f_equal.
  assert (Hsel : Permutation (select_continent_year c y df)
                             (select_continent_year c y df'))
    by now apply filter_Permutation.
  apply (descending_arrangement_unique key).
  - apply sort_values_sorted.
  - apply sort_values_sorted.
  - rewrite <- (sort_values_perm key (select_continent_year c y df)).
    rewrite Hsel. apply sort_values_perm.
  - intros a b Ha Hb. apply Hties.
    + apply (Permutation_in _ (Permutation_sym (sort_values_perm key _))).
      exact Ha.
    + apply (Permutation_in _ (Permutation_sym (sort_values_perm key _))).
      exact Hb.
Qed.

Lemma rank_under_row_reordering_witness :
  @rank StableSort sample_df "Asia" 1952 "pop"
  = @rank StableSort (rev sample_df) "Asia" 1952 "pop".
Proof.
  apply (@rank_under_row_reordering StableSort sample_df (rev sample_df)
           "Asia" 1952 "pop" (fun r => CInt (pop r))).
  - reflexivity.
  - apply Permutation_rev.
  - exact sample_asia_1952_no_ties.
Defined.

(* ================================================================= *)
(** ** More on the map, the bars and the table *)

Lemma find_by_iso (color : Row -> cell) (l : DataFrame) (r : Row) :
  NoDup (map iso_alpha l) -> In r l ->
  find (fun p : string * cell * (cell * cell) =>
          String.eqb (fst (fst p)) (iso_alpha r))
       (map (fun r0 => (iso_alpha r0, color r0, (CStr (country r0), color r0)))
            l)
  = Some (iso_alpha r, color r, (CStr (country r), color r)).
Proof.
  induction l as [| a t IH]; simpl; intros Hnd Hin; [contradiction |].
  apply NoDup_cons_iff in Hnd. destruct Hnd as [Ha Hnd].
  destruct Hin as [-> | Hin].
  - now rewrite String.eqb_refl.
  - destruct (String.eqb_spec (iso_alpha a) (iso_alpha r)) as [E | N].
    + exfalso. apply Ha. rewrite E. now apply in_map.
    + now apply IH.
Qed.

(** Looking a country up on the map.  When the rows of the requested
    year have pairwise different ISO codes, the value the map holds at a
    row's ISO code is that row's value of the metric. *)
Theorem map_value_of_row (df : DataFrame) (m : string) (y : Z)
    (color : Row -> cell) :
  is_metric m ->
  column m = Some color ->
  NoDup (map iso_alpha (select_year y df)) ->
  exists fig,
    create_choropleth_map df m y = Ok fig /\
    forall r, In r df -> year r = y ->
              map_value fig (iso_alpha r) = Some (color r).
Proof.
  intros Hm Hcol Hnd.
  destruct (is_metric_column m Hm) as (color' & Hcol' & Hnum).
  assert (color' = color) by congruence. subst color'.
  destruct (create_choropleth_map_points df m y color Hcol Hnum)
    as (fig & Hfig & Hpts).
  exists fig. split; [exact Hfig |].
  intros r Hin Hy. unfold map_value. rewrite Hpts.
  rewrite (find_by_iso color); [reflexivity | exact Hnd |].
  now apply select_year_spec.
Qed.

Lemma map_value_of_row_witness :
  exists fig,
    create_choropleth_map sample_df "pop" 1952 = Ok fig /\
    map_value fig "BGD" = Some (CInt 46886859).
Proof.
  destruct (map_value_of_row sample_df "pop" 1952 (fun r => CInt (pop r)))
    as (fig & Hfig & Hval).
  - left. reflexivity.
  - reflexivity.
  - vm_compute. repeat constructor; simpl; intuition discriminate.
  - exists fig. split; [exact Hfig |].
    apply (Hval (mkRow "Bangladesh" "Asia" 1952 (37484 # 1000) 46886859
                   (6842442 # 10000) "BGD" 50)).
    + simpl. tauto.
    + reflexivity.
Defined.

(** Ranking and map agree.  Every row ranked for a continent and a year
    has a value on the map drawn for the same year, whatever metrics the
    two panels show. *)
Theorem ranked_rows_are_on_map {pandas_sort : SortValues} (df : DataFrame)
    (c : string) (y : Z) (m v : string) (rows : DataFrame) :
  is_metric m -> is_metric v ->
  rank df c y m = Ok rows ->
  exists fig,
    create_choropleth_map df v y = Ok fig /\
    forall r, In r rows -> exists x, map_value fig (iso_alpha r) = Some x.
Proof.
  intros Hm Hv Hrank.
  destruct (is_metric_column m Hm) as (key & Hkey & _).
  destruct (is_metric_column v Hv) as (color & Hcol & Hnum).
  destruct (create_choropleth_map_points df v y color Hcol Hnum)
    as (fig & Hfig & Hpts).
  exists fig. split; [exact Hfig |].
  intros r Hr.
  assert (Hsel : In r (select_year y df)).
  { unfold rank, sort_head in Hrank. rewrite Hkey in Hrank.
    assert (Hrows : rows = firstn 15 (sort_values key
                                        (select_continent_year c y df)))
      by (unfold head in Hrank; congruence).
    rewrite Hrows in Hr. apply firstn_incl in Hr.
    apply (Permutation_in _ (Permutation_sym (sort_values_perm key _))) in Hr.
    apply select_continent_year_spec in Hr.
    apply select_year_spec. tauto. }
  unfold map_value. rewrite Hpts.
  destruct (find (fun p => String.eqb (fst (fst p)) (iso_alpha r))
              (map (fun r0 => (iso_alpha r0, color r0,
                               (CStr (country r0), color r0)))
                   (select_year y df))) as [p |] eqn:E.
  - eexists. reflexivity.
  - exfalso.
    assert (Hp : In (iso_alpha r, color r, (CStr (country r), color r))
                    (map (fun r0 => (iso_alpha r0, color r0,
                                     (CStr (country r0), color r0)))
                         (select_year y df)))
      by (apply in_map_iff; exists r; split; [reflexivity | exact Hsel]).
    pose proof (find_none _ _ E _ Hp) as Hf. simpl in Hf.
    rewrite String.eqb_refl in Hf. discriminate.
Qed.

Lemma ranked_rows_are_on_map_witness :
  exists rows fig,
    @rank StableSort sample_df "Asia" 1952 "pop" = Ok rows /\
    List.length rows = 3%nat /\
    create_choropleth_map sample_df "lifeExp" 1952 = Ok fig /\
    forall r, In r rows -> exists x, map_value fig (iso_alpha r) = Some x.
Proof.
  destruct (@ranked_rows_are_on_map StableSort sample_df "Asia" 1952 "pop"
              "lifeExp" _ (or_introl eq_refl)
              (or_intror (or_intror eq_refl)) eq_refl)
    as (fig & Hfig & Hon).
  eexists. exists fig. split; [reflexivity |]. split; [reflexivity |].
  split; [exact Hfig | exact Hon].
Defined.

Lemma filter_all (A : Type) (f : A -> bool) (l : list A) :
  (forall a, In a l -> f a = true) -> filter f l = l.
Proof.
  induction l as [| a t IH]; simpl; intros H; [reflexivity |].
  rewrite (H a (or_introl eq_refl)). f_equal. apply IH. intros; apply H; now right.
Qed.

Lemma filter_none (A : Type) (f : A -> bool) (l : list A) :
  (forall a, In a l -> f a = false) -> filter f l = [].
Proof.
  induction l as [| a t IH]; simpl; intros H; [reflexivity |].
  rewrite (H a (or_introl eq_refl)). apply IH. intros; apply H; now right.
Qed.

Lemma unique_of_distinct (l : list string) :
  NoDup l -> unique String.eqb l = l.
Proof.
  induction 1 as [| x t Hx Hnd IH]; simpl; [reflexivity |].
  rewrite IH. f_equal. apply filter_all. intros a Ha.
  destruct (String.eqb_spec x a) as [-> | N]; [contradiction | reflexivity].
Qed.

Lemma group_of_distinct (key : Row -> string) (df : DataFrame) (r : Row) :
  NoDup (map key df) -> In r df ->
  filter (fun r' => String.eqb (key r') (key r)) df = [r].
Proof.
  induction df as [| a t IH]; simpl; intros Hnd Hin; [contradiction |].
  apply NoDup_cons_iff in Hnd. destruct Hnd as [Ha Hnd].
  destruct Hin as [-> | Hin].
  - rewrite String.eqb_refl. f_equal. apply filter_none. intros b Hb.
    destruct (String.eqb_spec (key b) (key r)) as [E | N]; [| reflexivity].
    exfalso. apply Ha. rewrite <- E. now apply in_map.
  - destruct (String.eqb_spec (key a) (key r)) as [E | N].
    + exfalso. apply Ha. rewrite E. now apply in_map.
    + now apply IH.
Qed.

Lemma groupby_of_distinct (key : Row -> string) (df : DataFrame) :
  NoDup (map key df) -> groupby key df = map (fun r => (key r, [r])) df.
Proof.
  intros Hnd. unfold groupby. rewrite (unique_of_distinct _ Hnd), map_map.
  apply map_ext_in. intros r Hr. now rewrite (group_of_distinct key df r Hnd Hr).
Qed.

Lemma flat_map_enumerate (A B : Type) (h : A -> list B) (l : list A) :
  flat_map (fun ig : nat * A => h (snd ig)) (enumerate l) = flat_map h l.
Proof.
  unfold enumerate. generalize 0%nat.
  induction l as [| a t IH]; intros n; simpl; [reflexivity |].
  now rewrite IH.
Qed.

Lemma px_bar_points_distinct (df : DataFrame) (y_col : string)
    (key : Row -> cell) (fig : Figure) :
  column y_col = Some key ->
  NoDup (map country df) ->
  px_bar df y_col = Ok fig ->
  bar_points fig = map (fun r => (CStr (country r), key r)) df /\
  List.length (data fig) = List.length df.
Proof.
  intros Hcol Hnd. unfold px_bar. rewrite Hcol. intros [= <-].
  unfold bar_points. cbn [data].
  rewrite (groupby_of_distinct country df Hnd). split.
  - rewrite flat_map_concat_map, map_map. cbn [trace_bar_points].
    rewrite <- flat_map_concat_map.
    rewrite (flat_map_enumerate _ _
               (fun g : string * DataFrame =>
                  combine (map (fun r => CStr (country r)) (snd g))
                          (map key (snd g)))).
    clear. induction df as [| r t IH]; simpl; [reflexivity | now rewrite IH].
  - rewrite length_map. unfold enumerate.
    rewrite length_combine, length_seq, length_map. apply Nat.min_id.
Qed.

(** Bars follow the ranking.  When the rows given to [create_bar_chart]
    have pairwise different countries, the chart has one trace per
    ranked row and its bars, read trace after trace, are the ranked rows
    in ranking order: the country as category, the metric as height. *)
Theorem bars_follow_ranking {pandas_sort : SortValues} (df : DataFrame)
    (m title0 : string) (key : Row -> cell) :
  is_metric m ->
  column m = Some key ->
  NoDup (map country df) ->
  exists rows fig,
    sort_head df m = Ok rows /\
    create_bar_chart df m title0 = Ok fig /\
    bar_points fig = map (fun r => (CStr (country r), key r)) rows /\
    List.length (data fig) = List.length rows.
Proof.
  intros Hm Hcol Hnd.
  exists (head 15 (sort_values key df)).
  unfold create_bar_chart, sort_head. rewrite Hcol. cbn [bind].
  assert (Hnd' : NoDup (map country (head 15 (sort_values key df)))).
  { unfold head.
    assert (HP : Permutation (map country df)
                   (map country (firstn 15 (sort_values key df))
                    ++ map country (skipn 15 (sort_values key df)))).
    { rewrite <- map_app, firstn_skipn.
      apply Permutation_map, sort_values_perm. }
    apply (Permutation_NoDup HP) in Hnd.
    now apply NoDup_app_remove_r in Hnd. }
  destruct (px_bar (head 15 (sort_values key df)) m) as [fig |] eqn:E.
  - exists (update_layout_bar fig). split; [reflexivity |].
    split; [reflexivity |].
    exact (px_bar_points_distinct _ m key fig Hcol Hnd' E).
  - unfold px_bar in E. rewrite Hcol in E. discriminate.
Qed.

Lemma bars_follow_ranking_witness :
  exists fig,
    @create_bar_chart StableSort
      (select_continent_year "Asia" 1952 sample_df) "pop" "" = Ok fig /\
    bar_points fig = [ (CStr "Bangladesh", CInt 46886859);
                       (CStr "Afghanistan", CInt 8425333);
                       (CStr "Bahrain", CInt 120447) ].
Proof.
  destruct (@bars_follow_ranking StableSort
              (select_continent_year "Asia" 1952 sample_df) "pop" ""
              (fun r => CInt (pop r)) (or_introl eq_refl) eq_refl)
    as (rows & fig & Hrows & Hfig & Hbars & _).
  - vm_compute. repeat constructor; simpl; intuition discriminate.
  - exists fig. split; [exact Hfig |].
    rewrite Hbars.
    assert (Hr : rows = firstn 15 (stable_sort (fun r => CInt (pop r))
                                     (select_continent_year "Asia" 1952
                                        sample_df)))
      by (assert (Hok : Ok rows
                        = Ok (firstn 15 (stable_sort (fun r => CInt (pop r))
                                           (select_continent_year "Asia" 1952
                                              sample_df))))
            by (rewrite <- Hrows; reflexivity);
          now injection Hok).
    rewrite Hr. reflexivity.
Defined.

Lemma rows_of_columns (l1 l2 : DataFrame) :
  map country l1 = map country l2 ->
  map continent l1 = map continent l2 ->
  map year l1 = map year l2 ->
  map lifeExp l1 = map lifeExp l2 ->
  map pop l1 = map pop l2 ->
  map gdpPercap l1 = map gdpPercap l2 ->
  map iso_alpha l1 = map iso_alpha l2 ->
  map iso_num l1 = map iso_num l2 ->
  l1 = l2.
Proof.
  revert l2. induction l1 as [| a t IH]; intros [| b u]; simpl;
    try discriminate; [reflexivity |].
  intros [= H1 T1] [= H2 T2] [= H3 T3] [= H4 T4] [= H5 T5] [= H6 T6]
         [= H7 T7] [= H8 T8].
  f_equal.
  - destruct a, b; simpl in *. congruence.
  - now apply IH.
Qed.

Lemma map_cell_inj (A B : Type) (f : A -> B) (c : B -> cell)
    (l1 l2 : list A) :
  (forall x y, c x = c y -> x = y) ->
  map (fun r => c (f r)) l1 = map (fun r => c (f r)) l2 ->
  map f l1 = map f l2.
Proof.
  intros Hinj. revert l2.
  induction l1 as [| a t IH]; intros [| b u]; simpl; try discriminate;
    [reflexivity |].
  intros [= H T]. f_equal; [now apply Hinj | now apply IH].
Qed.

(** The table shows the whole frame.  Two frames with the same table
    are the same frame: no row and no field is lost in the table. *)
Theorem dataset_table_injective (df1 df2 : DataFrame) :
  dataset_table df1 = dataset_table df2 -> df1 = df2.
Proof.
  unfold dataset_table. cbn [flat_map columns column String.eqb Ascii.eqb
                               Bool.eqb app].
  intros [= H1 H2 H3 H4 H5 H6 H7 H8].
  apply rows_of_columns.
  - apply (map_cell_inj _ _ country CStr); [congruence | exact H1].
  - apply (map_cell_inj _ _ continent CStr); [congruence | exact H2].
  - apply (map_cell_inj _ _ year CInt); [congruence | exact H3].
  - apply (map_cell_inj _ _ lifeExp CFloat); [congruence | exact H4].
  - apply (map_cell_inj _ _ pop CInt); [congruence | exact H5].
  - apply (map_cell_inj _ _ gdpPercap CFloat); [congruence | exact H6].
  - apply (map_cell_inj _ _ iso_alpha CStr); [congruence | exact H7].
  - apply (map_cell_inj _ _ iso_num CInt); [congruence | exact H8].
Qed.

Lemma dataset_table_injective_witness :
  dataset_table (rev (rev sample_df)) = dataset_table sample_df /\
  rev (rev sample_df) = sample_df.
Proof.
  assert (H : dataset_table (rev (rev sample_df)) = dataset_table sample_df)
    by reflexivity.
  split; [exact H |].
  exact (dataset_table_injective (rev (rev sample_df)) sample_df H).
Defined.
